(** * boto-assume-role-with-mfa: session cache, MFA session factory, ARN parser
      and SSO session provider

    A shallow embedding of [boto_assume_role_with_mfa/arn.py],
    [boto_assume_role_with_mfa/mfa_session.py] and
    [boto_assume_role_with_mfa/sso_session.py], with the in-memory cache store
    of [tests/mfa_session_test.py] and, where a value written to the store is
    read back, the store as a parameter.  Python objects are values of [pyval];
    methods that read or write the cache store, call the STS client or read
    the terminal are computations of the monad [M] over [World]; pure fallible
    code (the ARN parser) lives in [result].  Calls to [logger.info] change
    no result and are left out. *)

From Stdlib Require Import ZArith Ascii String List Lia.
From stdpp Require Import base option list strings gmap.

Local Open Scope Z_scope.
Set Warnings "-register-all".

(** ** Python values *)

(** A [datetime.datetime]: its wall-clock fields as microseconds since the
    epoch, and its UTC offset when it is timezone-aware. *)
Record datetime := mk_datetime {
  wall_us : Z;
  utcoffset_us : option Z
}.

(** The objects a cached session record is made of: JSON values and the
    [datetime] botocore puts in [Credentials.Expiration]. *)
Inductive pyval :=
| PyNone
| PyBool (b : bool)
| PyInt (n : Z)
| PyStr (s : string)
| PyDatetime (d : datetime)
| PyList (l : list pyval)
| PyDict (d : gmap string pyval).

(** The exceptions the modelled code raises or lets through.  [Exception] is
    the plain [Exception(msg)] the package itself raises; a failure of a remote
    or interactive collaborator (botocore, aws_sso_lib) is [ExchangeFailure]. *)
Inductive exn :=
| KeyError (key : string)
| IndexError
| TypeError
| ParserError
| EOFError
| NotImplementedError (msg : string)
| Exception (msg : string)
| ExchangeFailure (detail : string).

Inductive result (A : Type) :=
| Ok (a : A)
| Raise (e : exn).
Arguments Ok {A} a.
Arguments Raise {A} e.

Definition result_bind {A B : Type} (f : A -> result B) (r : result A) : result B :=
  match r with
  | Ok a => f a
  | Raise e => Raise e
  end.

#[global] Instance result_ret : MRet result := fun _ a => Ok a.
#[global] Instance result_mbind : MBind result := fun _ _ f r => result_bind f r.

(** [bool(v)] *)
Definition truthy (v : pyval) : bool :=
  match v with
  | PyNone => false
  | PyBool b => b
  | PyInt n => negb (n =? 0)
  | PyStr s => negb (String.eqb s "")
  | PyDatetime _ => true
  | PyList l => negb (Nat.eqb (length l) 0)
  | PyDict d => negb (Nat.eqb (size d) 0)
  end.

(** [v[key]] for a string key: a dict looks the key up, every other object
    refuses a string subscript. *)
Definition getitem (v : pyval) (key : string) : result pyval :=
  match v with
  | PyDict d =>
      match d !! key with
      | Some x => Ok x
      | None => Raise (KeyError key)
      end
  | _ => Raise TypeError
  end.

(** [a < b] on datetimes: two aware datetimes compare by their UTC instants,
    two naive ones by their wall clocks, and a naive one against an aware one
    raises [TypeError]. *)
Definition datetime_lt (a b : datetime) : result bool :=
  match utcoffset_us a, utcoffset_us b with
  | Some oa, Some ob => Ok (wall_us a - oa <? wall_us b - ob)
  | None, None => Ok (wall_us a <? wall_us b)
  | _, _ => Raise TypeError
  end.

(** [a < b] where [b] is a datetime: only a datetime on the left is
    comparable. *)
Definition lt_datetime (a : pyval) (b : datetime) : result bool :=
  match a with
  | PyDatetime d => datetime_lt d b
  | _ => Raise TypeError
  end.

(** [datetime.datetime.now(tz=pytz.utc)] when the clock reads [t]. *)
Definition utc_datetime (t : Z) : datetime :=
  {| wall_us := t; utcoffset_us := Some 0 |}.

(** [datetime.timedelta(hours=h)], normalised as Python does into days and
    seconds within the day; [td_seconds] is its [.seconds] attribute. *)
Record timedelta := mk_timedelta {
  td_days : Z;
  td_seconds : Z
}.

Definition timedelta_hours (h : Z) : timedelta :=
  {| td_days := (h * 3600) / 86400; td_seconds := (h * 3600) mod 86400 |}.

(** ** Python strings and lists *)

Definition prepend (c : ascii) (parts : list string) : list string :=
  match parts with
  | [] => [String c EmptyString]
  | p :: ps => String c p :: ps
  end.

(** [s.split(sep)] for a one-character separator when [maxsplit = None], and
    [s.split(sep, n)] when [maxsplit = Some n]. *)
Fixpoint str_split (sep : ascii) (maxsplit : option nat) (s : string) {struct s}
  : list string :=
  match maxsplit with
  | Some O => [s]
  | _ =>
      match s with
      | EmptyString => [EmptyString]
      | String c s' =>
          if Ascii.eqb c sep
          then EmptyString :: str_split sep (Nat.pred <$> maxsplit) s'
          else prepend c (str_split sep maxsplit s')
      end
  end.

(** [sep.join(parts)] *)
Fixpoint str_join (sep : ascii) (parts : list string) : string :=
  match parts with
  | [] => EmptyString
  | p :: ps =>
      match ps with
      | [] => p
      | _ :: _ => p +:+ String sep (str_join sep ps)
      end
  end.

(** [sep in s] for a one-character [sep]. *)
Fixpoint str_contains (sep : ascii) (s : string) : bool :=
  match s with
  | EmptyString => false
  | String c s' => Ascii.eqb c sep || str_contains sep s'
  end.

(** [l[i]] for [0 <= i]. *)
Definition list_getitem (l : list string) (i : nat) : result string :=
  match l !! i with
  | Some x => Ok x
  | None => Raise IndexError
  end.

(** [l[-1]] *)
Definition list_getitem_last (l : list string) : result string :=
  match last l with
  | Some x => Ok x
  | None => Raise IndexError
  end.

(** ** arn.py *)

Module ARN.

Record t := mk {
  full_arn : string;
  arn : string;
  partition : string;
  service : string;
  region : string;
  account : string;
  resource_type : option string;
  resource : string
}.

Definition _get_resource (elements : list string) : result (option string * string) :=
  if Nat.eqb (length elements) 7 then
    e5 ← list_getitem elements 5;
    e6 ← list_getitem elements 6;
    mret (Some e5, e6)
  else
    e5 ← list_getitem elements 5;
    if negb (str_contains "/" e5) then
      mret (None, e5)
    else
      let resource := str_split "/" (Some 1%nat) e5 in
      r0 ← list_getitem resource 0;
      r1 ← list_getitem resource 1;
      mret (Some r0, r1).

Definition __init__ (arn : string) : result t :=
  let elements := str_split ":" None arn in
  e0 ← list_getitem elements 0;
  e1 ← list_getitem elements 1;
  e2 ← list_getitem elements 2;
  e3 ← list_getitem elements 3;
  e4 ← list_getitem elements 4;
  '(resource_type, resource) ← _get_resource elements;
  mret {| full_arn := arn; arn := e0; partition := e1; service := e2;
          region := e3; account := e4;
          resource_type := resource_type; resource := resource |}.

End ARN.

(** ** The world the methods run in *)

(** What a remote or interactive collaborator answers: a value, or a failure
    that the caller sees as [ExchangeFailure]. *)
Inductive ext (A : Type) :=
| Returns (a : A)
| Fails (detail : string).
Arguments Returns {A} a.
Arguments Fails {A} detail.

(** A botocore STS client, by what its operations answer.  The fields of the
    [get_caller_identity] response the package reads ([Account], [Arn],
    [UserId]) are strings. *)
Record StsClient := mk_sts {
  sts_get_caller_identity : ext (gmap string string);
  sts_get_session_token : Z -> string -> string -> ext pyval
}.

(** The calls made to the collaborators, oldest first. *)
Inductive call :=
| GetCallerIdentity
| GetSessionToken (DurationSeconds : Z) (SerialNumber TokenCode : string)
| ListAvailableRoles (sso_region start_url : string) (login : bool)
| GetBoto3Session (start_url sso_region account_id role_name region : string)
    (login : bool)
| AssumeRole (RoleArn RoleSessionName : string) (DurationSeconds : Z).

(** [cache] is the dict behind the test suite's [InMemoryCache] (the object
    [SessionCache._cache] refers to), [clock] the current UTC time in
    microseconds, [stdin] the lines [input] will read, [calls] the log of
    collaborator calls. *)
Record World := mk_world {
  cache : gmap string pyval;
  clock : Z;
  stdin : list string;
  calls : list call
}.

(** Computations that read and write the world and may raise; an exception
    keeps the world as it was when raised. *)
Definition M (A : Type) : Type := World -> result A * World.

Definition M_bind {A B : Type} (f : A -> M B) (m : M A) : M B :=
  fun w =>
    match m w with
    | (Ok a, w') => f a w'
    | (Raise e, w') => (Raise e, w')
    end.

#[global] Instance M_ret : MRet M := fun _ a w => (Ok a, w).
#[global] Instance M_mbind : MBind M := fun _ _ f m => M_bind f m.

Definition raise {A : Type} (e : exn) : M A := fun w => (Raise e, w).

(** A pure fallible step inside a method. *)
Definition lift {A : Type} (r : result A) : M A := fun w => (r, w).

(** [try: body except ...: handler]; [handler e = None] when no [except]
    clause matches [e]. *)
Definition try_except {A : Type} (body : M A) (handler : exn -> option (M A)) : M A :=
  fun w =>
    match body w with
    | (Ok a, w') => (Ok a, w')
    | (Raise e, w') =>
        match handler e with
        | Some h => h w'
        | None => (Raise e, w')
        end
    end.

(** A call to a collaborator: logged, then answered. *)
Definition call_ext {A : Type} (c : call) (answer : ext A) : M A :=
  fun w =>
    let w' := {| cache := cache w; clock := clock w; stdin := stdin w;
                 calls := calls w ++ [c] |} in
    match answer with
    | Returns a => (Ok a, w')
    | Fails d => (Raise (ExchangeFailure d), w')
    end.

(** [InMemoryCache.__getitem__]: [dict.__getitem__] on the store. *)
Definition cache_getitem (cache_key : string) : M pyval :=
  fun w =>
    match cache w !! cache_key with
    | Some v => (Ok v, w)
    | None => (Raise (KeyError cache_key), w)
    end.

(** [InMemoryCache.__setitem__] *)
Definition cache_setitem (cache_key : string) (value : pyval) : M unit :=
  fun w =>
    (Ok tt, {| cache := <[cache_key := value]> (cache w); clock := clock w;
               stdin := stdin w; calls := calls w |}).

(** [datetime.datetime.now(tz=pytz.utc)] *)
Definition datetime_now_utc : M datetime :=
  fun w => (Ok (utc_datetime (clock w)), w).

(** [input(prompt)]: the next line of the terminal, [EOFError] when there is
    none. *)
Definition input : M string :=
  fun w =>
    match stdin w with
    | line :: rest =>
        (Ok line, {| cache := cache w; clock := clock w; stdin := rest;
                     calls := calls w |})
    | [] => (Raise EOFError, w)
    end.

(** The library functions the package imports: [dateutil.parser.parse]
    ([None] when it raises its [ParserError]) and aws_sso_lib's
    [list_available_roles] and [get_boto3_session].  A role is the triple
    (account id, account name, role name); a boto3 [Session] is known by the
    STS client it creates. *)
Record Session := mk_session {
  session_sts_client : StsClient;
  session_access_key : string;
  session_secret_key : string;
  session_token : string
}.

Class Externals := {
  parse : string -> option datetime;
  list_available_roles :
    string -> string -> bool -> ext (list (string * string * string));
  get_boto3_session :
    string -> string -> string -> string -> string -> bool -> ext Session
}.

(** ** mfa_session.py *)

Module SessionCache.
Section SessionCache.
Context `{Externals}.

(** [parse(s)] of [dateutil.parser] *)
Definition dateutil_parse (s : string) : M pyval :=
  match parse s with
  | Some d => mret (PyDatetime d)
  | None => raise ParserError
  end.

(** The branch on [isinstance(expiration, str)] is the match on [PyStr]. *)
Definition _is_expired (session_data : pyval) : M bool :=
  credentials ← lift (getitem session_data "Credentials");
  expiration ← lift (getitem credentials "Expiration");
  expiration ←
    (match expiration with
     | PyStr s => dateutil_parse s
     | _ => mret expiration
     end);
  now ← datetime_now_utc;
  expired ← lift (lt_datetime expiration now);
  mret expired.

Definition _get_cached_session (key : string) : M pyval :=
  try_except (cache_getitem key)
    (fun e => match e with
              | KeyError _ => Some (mret PyNone)
              | _ => None
              end).

Definition get_session_token (key : string) : M pyval :=
  session_data ← _get_cached_session key;
  cond ← (if truthy session_data then _is_expired session_data else mret false);
  if (cond : bool) then mret PyNone else mret session_data.

Definition cache_session (key : string) (data : pyval) : M unit :=
  cache_setitem key data.

End SessionCache.
End SessionCache.

Definition _get_account_and_user (sts_client : StsClient) : M (string * string) :=
  identity ← call_ext GetCallerIdentity (sts_get_caller_identity sts_client);
  arn ← lift (match identity !! "Arn" with
              | Some a => Ok a
              | None => Raise (KeyError "Arn")
              end);
  account ← lift (match identity !! "Account" with
                  | Some a => Ok a
                  | None => Raise (KeyError "Account")
                  end);
  user ← lift (list_getitem_last (str_split "/" None arn));
  mret (account, user).

Module CachedMfaSessionFactory.

Definition SESSION_KEY : string := "temporary_session".
Definition MFA_SESSION_DURATION : timedelta := timedelta_hours 12.

Record t := mk {
  _sts_client : StsClient
}.

Section CachedMfaSessionFactory.
Context `{Externals}.

Definition _create_session (self : t) (mfa_token : option string) : M pyval :=
  mfa_token ←
    (match mfa_token with
     | Some tok => if String.eqb tok "" then input else mret tok
     | None => input
     end);
  '(account, user) ← _get_account_and_user (_sts_client self);
  let DurationSeconds := td_seconds MFA_SESSION_DURATION in
  let SerialNumber := "arn:aws:iam::" +:+ account +:+ ":mfa/" +:+ user in
  session_data ←
    call_ext (GetSessionToken DurationSeconds SerialNumber mfa_token)
      (sts_get_session_token (_sts_client self)
         DurationSeconds SerialNumber mfa_token);
  _ ← SessionCache.cache_session SESSION_KEY session_data;
  mret session_data.

Definition get_session_token (self : t) (mfa_token : option string) : M pyval :=
  session_data ← SessionCache.get_session_token SESSION_KEY;
  if truthy session_data then mret session_data
  else _create_session self mfa_token.

End CachedMfaSessionFactory.
End CachedMfaSessionFactory.

(** ** sso_session.py *)

Module SSOSessionProvider.

Record t := mk {
  _start_url : string;
  _sso_region : string
}.

Section SSOSessionProvider.
Context `{Externals}.

Definition temporary_credentials (self : t) : M pyval :=
  raise (NotImplementedError "SSO session uses token, not credentials").

Definition assume_role_session (self : t)
    (role_arn region_name session_name : string) : M Session :=
  arn ← lift (ARN.__init__ role_arn);
  call_ext
    (GetBoto3Session (_start_url self) (_sso_region self)
       (ARN.account arn) (ARN.resource arn) region_name true)
    (get_boto3_session (_start_url self) (_sso_region self)
       (ARN.account arn) (ARN.resource arn) region_name true).

Definition assume_role_credentials (self : t)
    (role_arn region_name session_name : string) : M (gmap string string) :=
  session ← assume_role_session self role_arn region_name session_name;
  let temp_credentials : gmap string string :=
    <["AccessKeyId" := session_access_key session]>
      (<["SecretAccessKey" := session_secret_key session]>
         (<["SessionToken" := session_token session]> ∅)) in
  mret temp_credentials.

(** The [for] loop returns at the first role the generator yields; the
    [raise] is reached when it yields none. *)
Definition _get_any_role (self : t) : M ARN.t :=
  roles ← call_ext (ListAvailableRoles (_sso_region self) (_start_url self) true)
             (list_available_roles (_sso_region self) (_start_url self) true);
  match roles with
  | (role0, _, role2) :: _ =>
      lift (ARN.__init__ ("arn:aws:iam::" +:+ role0 +:+ ":role/" +:+ role2))
  | [] => raise (Exception "No accessible roles found")
  end.

Definition get_user (self : t) : M string :=
  role ← _get_any_role self;
  session ← assume_role_session self (ARN.full_arn role) "eu-west-1" "test";
  let sts := session_sts_client session in
  user_identity ← call_ext GetCallerIdentity (sts_get_caller_identity sts);
  user_id ← lift (match user_identity !! "UserId" with
                  | Some u => Ok u
                  | None => Raise (KeyError "UserId")
                  end);
  lift (list_getitem (str_split ":" (Some 2%nat) user_id) 1).

End SSOSessionProvider.
End SSOSessionProvider.

(** ** mfa_session.py: the MFA session provider *)

(** boto3 as the MFA provider uses it: the constructor [Session], given its
    keyword arguments as a dict, and [client.assume_role(RoleArn=...,
    RoleSessionName=..., DurationSeconds=...)] of an STS client. *)
Class Boto3 := {
  boto3_Session : gmap string pyval -> Session;
  sts_assume_role : StsClient -> string -> string -> Z -> ext pyval
}.

Module MFASessionProvider.

Definition ASSUME_ROLE_SESSION_DURATION : timedelta := timedelta_hours 1.

Record t := mk {
  _session_data : pyval
}.

(** The dict [session_properties] that [_get_session_from] builds; a default
    [None] stands for an argument left out. *)
Definition session_properties
    (aws_access_key_id aws_secret_access_key aws_session_token region_name : pyval)
  : gmap string pyval :=
  let session_properties : gmap string pyval :=
    <["aws_secret_access_key" := aws_secret_access_key]>
      (<["aws_access_key_id" := aws_access_key_id]> ∅) in
  let session_properties :=
    if truthy aws_session_token
    then <["aws_session_token" := aws_session_token]> session_properties
    else session_properties in
  if truthy region_name
  then <["region_name" := region_name]> session_properties
  else session_properties.

Section MFASessionProvider.
Context `{Boto3}.

Definition _get_session_from
    (aws_access_key_id aws_secret_access_key aws_session_token region_name : pyval)
  : Session :=
  boto3_Session
    (session_properties aws_access_key_id aws_secret_access_key
       aws_session_token region_name).

Definition temporary_credentials (self : t) : M pyval :=
  lift (getitem (_session_data self) "Credentials").

Definition _create_temporary_session (self : t) (region_name : string) : M Session :=
  credentials ← lift (getitem (_session_data self) "Credentials");
  aws_access_key_id ← lift (getitem credentials "AccessKeyId");
  credentials ← lift (getitem (_session_data self) "Credentials");
  aws_secret_access_key ← lift (getitem credentials "SecretAccessKey");
  credentials ← lift (getitem (_session_data self) "Credentials");
  aws_session_token ← lift (getitem credentials "SessionToken");
  mret (_get_session_from aws_access_key_id aws_secret_access_key
          aws_session_token (PyStr region_name)).

Definition assume_role_credentials (self : t)
    (role_arn region_name session_name : string) : M pyval :=
  session ← _create_temporary_session self region_name;
  let temp_sts_client := session_sts_client session in
  session_data ←
    call_ext
      (AssumeRole role_arn session_name (td_seconds ASSUME_ROLE_SESSION_DURATION))
      (sts_assume_role temp_sts_client role_arn session_name
         (td_seconds ASSUME_ROLE_SESSION_DURATION));
  lift (getitem session_data "Credentials").

Definition assume_role_session (self : t)
    (role_arn region_name session_name : string) : M Session :=
  role_credentials ← assume_role_credentials self role_arn region_name session_name;
  aws_access_key_id ← lift (getitem role_credentials "AccessKeyId");
  aws_secret_access_key ← lift (getitem role_credentials "SecretAccessKey");
  aws_session_token ← lift (getitem role_credentials "SessionToken");
  mret (_get_session_from aws_access_key_id aws_secret_access_key
          aws_session_token (PyStr region_name)).

Definition get_user (self : t) : M string :=
  session ← _create_temporary_session self "eu-west-1";
  let temp_sts_client := session_sts_client session in
  account_and_user ← _get_account_and_user temp_sts_client;
  mret (snd account_and_user).

End MFASessionProvider.
End MFASessionProvider.

(** ** The store behind the session cache *)

(** [SessionCache] works on the store it is constructed with.  The test suite
    gives it [InMemoryCache], a dict, which keeps the object it is given;
    [MFASessionProvider.create] gives it botocore's [JSONFileCache], which
    writes the value to a file as JSON and reads the JSON back.  A store is
    known here by [stored_form]: what its [__getitem__] hands back for a
    value its [__setitem__] was given. *)
Class CacheStore := {
  stored_form : pyval -> pyval
}.

Definition InMemoryCache : CacheStore :=
  {| stored_form := fun value => value |}.

(** [json.loads(json.dumps(value, default=_serialize_if_needed))], the round
    trip of botocore's [JSONFileCache]: a datetime is written as the string
    [strftime] gives for it, and every other value comes back as it was. *)
Fixpoint json_form (strftime : datetime -> string) (value : pyval) : pyval :=
  match value with
  | PyDatetime d => PyStr (strftime d)
  | PyList l => PyList (map (json_form strftime) l)
  | PyDict d => PyDict (json_form strftime <$> d)
  | _ => value
  end.

Definition JSONFileCache (strftime : datetime -> string) : CacheStore :=
  {| stored_form := json_form strftime |}.

(** [store[cache_key] = value]: from then on the world's [cache] holds, under
    the key, what the store hands back. *)
Definition store_setitem {store : CacheStore} (cache_key : string) (value : pyval)
  : M unit :=
  cache_setitem cache_key (stored_form value).

(** The writing methods of [SessionCache] and [CachedMfaSessionFactory] over
    a given store.  Reading is [SessionCache.get_session_token] as it stands,
    since [cache] holds what the store hands back. *)
Module StoredSessionCache.

Definition cache_session {store : CacheStore} (key : string) (data : pyval)
  : M unit :=
  store_setitem key data.

End StoredSessionCache.

Module StoredMfaSessionFactory.
Section StoredMfaSessionFactory.
Context `{Externals} {store : CacheStore}.

Definition _create_session (self : CachedMfaSessionFactory.t)
    (mfa_token : option string) : M pyval :=
  mfa_token ←
    (match mfa_token with
     | Some tok => if String.eqb tok "" then input else mret tok
     | None => input
     end);
  '(account, user) ←
    _get_account_and_user (CachedMfaSessionFactory._sts_client self);
  let DurationSeconds :=
    td_seconds CachedMfaSessionFactory.MFA_SESSION_DURATION in
  let SerialNumber := "arn:aws:iam::" +:+ account +:+ ":mfa/" +:+ user in
  session_data ←
    call_ext (GetSessionToken DurationSeconds SerialNumber mfa_token)
      (sts_get_session_token (CachedMfaSessionFactory._sts_client self)
         DurationSeconds SerialNumber mfa_token);
  _ ← StoredSessionCache.cache_session
        CachedMfaSessionFactory.SESSION_KEY session_data;
  mret session_data.

Definition get_session_token (self : CachedMfaSessionFactory.t)
    (mfa_token : option string) : M pyval :=
  session_data ←
    SessionCache.get_session_token CachedMfaSessionFactory.SESSION_KEY;
  if truthy session_data then mret session_data
  else _create_session self mfa_token.

End StoredMfaSessionFactory.
End StoredMfaSessionFactory.

(** ** Vocabulary of the specification *)

(** The nested field [entry["Credentials"]["Expiration"]] of a session
    record, when the record has it. *)
Definition expiration_field (entry : pyval) : option pyval :=
  match entry with
  | PyDict d =>
      match d !! "Credentials" with
      | Some (PyDict c) => c !! "Expiration"
      | _ => None
      end
  | _ => None
  end.

(** The UTC instant of an aware datetime. *)
Definition utc_instant (d : datetime) : option Z :=
  (fun o => wall_us d - o) <$> utcoffset_us d.

(** The UTC instant at which a session record expires: its expiration field
    is an aware datetime, or a string that parses to one. *)
Definition expiration_instant `{Externals} (entry : pyval) : option Z :=
  match expiration_field entry with
  | Some (PyDatetime d) => utc_instant d
  | Some (PyStr s) => parse s ≫= utc_instant
  | _ => None
  end.

(** [part] is what follows the last [sep] of [s] (all of [s] when it has
    none). *)
Definition after_last (sep : ascii) (s part : string) : Prop :=
  str_contains sep part = false /\
  (s = part \/ exists before, s = before +:+ String sep part).

(** The world [w] at the later moment when the clock reads [t]. *)
Definition at_time (t : Z) (w : World) : World :=
  {| cache := cache w; clock := t; stdin := stdin w; calls := calls w |}.

(** How many logged calls satisfy [p]. *)
Definition call_count (p : call -> bool) (w : World) : nat :=
  length (filter (fun c => p c = true) (calls w)).

Definition is_get_session_token (c : call) : bool :=
  match c with
  | GetSessionToken _ _ _ => true
  | _ => false
  end.

Definition is_get_caller_identity (c : call) : bool :=
  match c with
  | GetCallerIdentity => true
  | _ => false
  end.

(** ** Fixtures of the test suite *)

(** [SESSION_DATA] of [tests/mfa_session_test.py]. *)
Definition SESSION_DATA : pyval :=
  PyDict (list_to_map [
    ("Credentials", PyDict (list_to_map [
       ("AccessKeyId", PyStr "temporary_access_key_id");
       ("SecretAccessKey", PyStr "temporary_secret_access_key");
       ("SessionToken", PyStr "token");
       ("Expiration", PyStr "2020-10-01T17:08:49UTC")]));
    ("AssumedRoleUser", PyDict (list_to_map [
       ("AssumedRoleId", PyStr "temporary_access_key_id:fred");
       ("Arn", PyStr "arn:aws:sts::496141846484:assumed-role/admin/fred")]));
    ("ResponseMetadata", PyDict (list_to_map [
       ("RequestId", PyStr "4f396cb1-3c68-11ea-94b0-71e1440a90e9");
       ("HTTPStatusCode", PyInt 200);
       ("HTTPHeaders", PyDict (list_to_map [
          ("x-amzn-requestid", PyStr "4f396cb1-3c68-11ea-94b0-71e1440a90e9");
          ("content-type", PyStr "text/xml");
          ("content-length", PyStr "1047");
          ("date", PyStr "Mon, 05 Oct 2020 16:08:49 GMT")]));
       ("RetryAttempts", PyInt 0)]))]).

(** 2020-10-01T17:08:49 UTC in microseconds since the epoch. *)
Definition t_expiration : Z := 1601572129000000.

(** A session record whose expiration is the datetime [d], as botocore
    returns it. *)
Definition session_expiring_at (d : datetime) : pyval :=
  PyDict {[ "Credentials" := PyDict {[ "Expiration" := PyDatetime d ]} ]}.

(** The mocked STS client of [test_temporary_credentials_from_session]. *)
Definition test_sts_client : StsClient :=
  {| sts_get_caller_identity :=
       Returns (<["Arn" := "arn"]> (<["Account" := "123456789012"]> ∅));
     sts_get_session_token := fun _ _ _ => Returns SESSION_DATA |}.

(** Collaborators for the examples: a parser that knows the fixture's
    timestamp, one SSO role, and a session whose caller identity is an
    assumed-role user id. *)
Definition test_sso_session : Session :=
  {| session_sts_client :=
       {| sts_get_caller_identity :=
            Returns (<["UserId" := "AROAEXAMPLEID:fred:test"]> ∅);
          sts_get_session_token := fun _ _ _ => Fails "AccessDenied" |};
     session_access_key := "ASIAEXAMPLE";
     session_secret_key := "secret";
     session_token := "token" |}.

Definition test_externals : Externals :=
  {| parse := fun s =>
       if String.eqb s "2020-10-01T17:08:49UTC"
       then Some (utc_datetime t_expiration) else None;
     list_available_roles := fun _ _ _ =>
       Returns [("123456789012", "sandbox", "developer")];
     get_boto3_session := fun _ _ _ _ _ _ => Returns test_sso_session |}.

(** An SSO identity with no role to offer. *)
Definition no_roles_externals : Externals :=
  {| parse := fun _ => None;
     list_available_roles := fun _ _ _ => Returns [];
     get_boto3_session := fun _ _ _ _ _ _ => Fails "ForbiddenException" |}.

Definition test_sso_provider : SSOSessionProvider.t :=
  {| SSOSessionProvider._start_url := "https://example.awsapps.com/start";
     SSOSessionProvider._sso_region := "eu-west-1" |}.

Definition empty_world (now : Z) : World :=
  {| cache := ∅; clock := now; stdin := []; calls := [] |}.

Definition test_factory : CachedMfaSessionFactory.t :=
  {| CachedMfaSessionFactory._sts_client := test_sts_client |}.

(** A store holding, under ["key"], a session that expires exactly when
    the clock reads [t_expiration]. *)
Definition boundary_world : World :=
  {| cache := {[ "key" := session_expiring_at (utc_datetime t_expiration) ]};
     clock := t_expiration; stdin := []; calls := [] |}.

(** A store holding a non-empty record without [Credentials]. *)
Definition malformed_world : World :=
  {| cache := {[ "key" := PyDict {[ "AccessKeyId" := PyStr "AKIA" ]} ]};
     clock := t_expiration; stdin := []; calls := [] |}.

(** The three credentials the MFA provider reads off a session record:
    [AccessKeyId], [SecretAccessKey] and [SessionToken] under [Credentials]. *)
Definition credential_fields (session_data : pyval) : option (pyval * pyval * pyval) :=
  match session_data with
  | PyDict d =>
      match d !! "Credentials" with
      | Some (PyDict c) =>
          match c !! "AccessKeyId", c !! "SecretAccessKey", c !! "SessionToken" with
          | Some k, Some s, Some t => Some (k, s, t)
          | _, _, _ => None
          end
      | _ => None
      end
  | _ => None
  end.

(** An STS client that knows the caller and rejects every MFA code. *)
Definition rejecting_sts_client : StsClient :=
  {| sts_get_caller_identity :=
       Returns (<["Arn" := "arn:aws:iam::123456789012:user/ops/fred"]>
                  (<["Account" := "123456789012"]> ∅));
     sts_get_session_token := fun _ _ _ => Fails "AccessDenied" |}.

(** An STS client that cannot be reached. *)
Definition unreachable_sts_client : StsClient :=
  {| sts_get_caller_identity := Fails "EndpointConnectionError";
     sts_get_session_token := fun _ _ _ => Fails "EndpointConnectionError" |}.

(** A store holding the test fixture under the factory's key. *)
Definition warm_world (now : Z) : World :=
  {| cache := {[ "temporary_session" := SESSION_DATA ]}; clock := now;
     stdin := []; calls := [] |}.

(** A session whose expiration is a naive datetime. *)
Definition naive_session : pyval :=
  session_expiring_at {| wall_us := t_expiration; utcoffset_us := None |}.

(** The credentials an assume-role call answers with. *)
Definition ROLE_CREDENTIALS : pyval :=
  PyDict (list_to_map [
    ("AccessKeyId", PyStr "role_access_key_id");
    ("SecretAccessKey", PyStr "role_secret_access_key");
    ("SessionToken", PyStr "role_token")]).

(** A boto3 whose sessions all talk to [rejecting_sts_client] and whose
    assume-role answers [ROLE_CREDENTIALS]. *)
Definition test_boto3 : Boto3 :=
  {| boto3_Session := fun _ =>
       {| session_sts_client := rejecting_sts_client;
          session_access_key := "key"; session_secret_key := "secret";
          session_token := "token" |};
     sts_assume_role := fun _ _ _ _ =>
       Returns (PyDict {[ "Credentials" := ROLE_CREDENTIALS ]}) |}.

Definition test_mfa_provider : MFASessionProvider.t :=
  {| MFASessionProvider._session_data := SESSION_DATA |}.

(** One role on offer, and a login that is refused. *)
Definition refused_login_externals : Externals :=
  {| parse := fun _ => None;
     list_available_roles := fun _ _ _ =>
       Returns [("123456789012", "sandbox", "developer")];
     get_boto3_session := fun _ _ _ _ _ _ => Fails "UnauthorizedException" |}.

(** A first role whose name holds a colon. *)
Definition colon_role_externals : Externals :=
  {| parse := fun _ => None;
     list_available_roles := fun _ _ _ =>
       Returns [("123456789012", "sandbox", "team:developer")];
     get_boto3_session := fun _ _ _ _ _ _ => Returns test_sso_session |}.

(** How the examples' [JSONFileCache] writes a datetime: the rendering of the
    fixture's expiration, the only datetime they store. *)
Definition test_strftime : datetime -> string :=
  fun _ => "2020-10-01T17:08:49UTC".

(** A session record as STS returns it: the expiration is a datetime. *)
Definition STS_SESSION : pyval :=
  PyDict (list_to_map [
    ("Credentials", PyDict (list_to_map [
       ("AccessKeyId", PyStr "temporary_access_key_id");
       ("SecretAccessKey", PyStr "temporary_secret_access_key");
       ("SessionToken", PyStr "token");
       ("Expiration", PyDatetime (utc_datetime t_expiration))]))]).

(** An STS client that answers every code with [STS_SESSION]. *)
Definition granting_sts_client : StsClient :=
  {| sts_get_caller_identity :=
       Returns (<["Arn" := "arn:aws:iam::123456789012:user/ops/fred"]>
                  (<["Account" := "123456789012"]> ∅));
     sts_get_session_token := fun _ _ _ => Returns STS_SESSION |}.

Definition granting_factory : CachedMfaSessionFactory.t :=
  {| CachedMfaSessionFactory._sts_client := granting_sts_client |}.

Definition rejecting_factory : CachedMfaSessionFactory.t :=
  {| CachedMfaSessionFactory._sts_client := rejecting_sts_client |}.

Definition unreachable_factory : CachedMfaSessionFactory.t :=
  {| CachedMfaSessionFactory._sts_client := unreachable_sts_client |}.


(** [m] leaves the store and the clock as it finds them, whatever it returns
    or raises. *)
Definition keeps_store {A : Type} (m : M A) : Prop :=
  forall w : World,
    cache (snd (m w)) = cache w /\ clock (snd (m w)) = clock w.

(** * Properties *)

(** ** Running the monad *)

Ltac unfold_M :=
  unfold mbind, M_mbind, M_bind, mret, M_ret, lift, raise, try_except,
    call_ext, cache_getitem, cache_setitem, datetime_now_utc in *.

Section SessionCacheFacts.
Context `{Externals}.

Lemma get_cached_session_hit (key : string) (w : World) (v : pyval) :
  cache w !! key = Some v ->
  SessionCache._get_cached_session key w = (Ok v, w).
Proof.
  intros Hv. unfold SessionCache._get_cached_session. unfold_M.
  now rewrite Hv.
Qed.

Lemma get_cached_session_miss (key : string) (w : World) :
  cache w !! key = None ->
  SessionCache._get_cached_session key w = (Ok PyNone, w).
Proof.
  intros Hv. unfold SessionCache._get_cached_session. unfold_M.
  now rewrite Hv.
Qed.

Lemma get_cached_session_frame (key : string) (w : World) :
  snd (SessionCache._get_cached_session key w) = w.
Proof.
  destruct (cache w !! key) as [v|] eqn:Hv.
  - now rewrite (get_cached_session_hit _ _ _ Hv).
  - now rewrite (get_cached_session_miss _ _ Hv).
Qed.

Lemma is_expired_frame (session_data : pyval) (w : World) :
  snd (SessionCache._is_expired session_data w) = w.
Proof.
  unfold SessionCache._is_expired, SessionCache.dateutil_parse. unfold_M.
  destruct (getitem session_data "Credentials") as [c|]; [|reflexivity].
  destruct (getitem c "Expiration") as [x|]; [|reflexivity].
  destruct x as [| | |s|d| |]; simpl; try reflexivity.
  - destruct (parse s); simpl; [|reflexivity].
    destruct (datetime_lt _ _); reflexivity.
  - destruct (datetime_lt _ _); reflexivity.
Qed.

Lemma expiration_field_truthy (entry x : pyval) :
  expiration_field entry = Some x -> truthy entry = true.
Proof.
  destruct entry as [| | | | | |d]; try discriminate. simpl.
  destruct (d !! "Credentials") as [c|] eqn:Hc; [|discriminate].
  intros _. apply negb_true_iff, Nat.eqb_neq.
  apply (map_size_ne_0_lookup_2 d "Credentials"). now exists c.
Qed.

Lemma expiration_field_getitem (entry x : pyval) :
  expiration_field entry = Some x ->
  exists c, getitem entry "Credentials" = Ok c /\ getitem c "Expiration" = Ok x.
Proof.
  destruct entry as [| | | | | |d]; try discriminate. simpl.
  destruct (d !! "Credentials") as [[| | | | | |c]|]; try discriminate.
  intros Hx. exists (PyDict c). split; [reflexivity|]. simpl. now rewrite Hx.
Qed.

Lemma is_expired_instant (entry : pyval) (e : Z) (w : World) :
  expiration_instant entry = Some e ->
  SessionCache._is_expired entry w = (Ok (e <? clock w), w).
Proof.
  unfold expiration_instant.
  destruct (expiration_field entry) as [x|] eqn:Hx; [|discriminate].
  destruct (expiration_field_getitem _ _ Hx) as (c & Hc & Hxc).
  unfold SessionCache._is_expired, SessionCache.dateutil_parse. unfold_M.
  rewrite Hc, Hxc.
  destruct x as [| | |s|d| |]; try discriminate.
  - destruct (parse s) as [d|]; [|discriminate]. simpl.
    unfold utc_instant, datetime_lt.
    destruct (utcoffset_us d) as [o|]; [|discriminate]. simpl.
    intros [= <-]. now rewrite Z.sub_0_r.
  - simpl. unfold utc_instant, datetime_lt.
    destruct (utcoffset_us d) as [o|]; [|discriminate]. simpl.
    intros [= <-]. now rewrite Z.sub_0_r.
Qed.

Lemma get_session_token_instant (key : string) (entry : pyval) (e : Z) (w : World) :
  cache w !! key = Some entry ->
  expiration_instant entry = Some e ->
  SessionCache.get_session_token key w
  = (Ok (if e <? clock w then PyNone else entry), w).
Proof.
  intros Hk He. unfold SessionCache.get_session_token.
  unfold mbind, M_mbind, M_bind.
  rewrite (get_cached_session_hit _ _ _ Hk).
  assert (Ht : truthy entry = true).
  { unfold expiration_instant in He.
    destruct (expiration_field entry) as [x|] eqn:Hx; [|discriminate].
    eapply expiration_field_truthy; eauto. }
  rewrite Ht, (is_expired_instant _ _ _ He).
  now destruct (e <? clock w).
Qed.

Lemma get_session_token_frame (key : string) (w : World) :
  snd (SessionCache.get_session_token key w) = w.
Proof.
  unfold SessionCache.get_session_token, mbind, M_mbind, M_bind.
  pose proof (get_cached_session_frame key w) as Hc.
  destruct (SessionCache._get_cached_session key w) as [[v|x] w1];
    simpl in Hc; subst w1; [|reflexivity].
  destruct (truthy v).
  - pose proof (is_expired_frame v w) as Hx.
    destruct (SessionCache._is_expired v w) as [[b|x] w2];
      simpl in Hx; subst w2; [|reflexivity].
    now destruct b.
  - reflexivity.
Qed.

End SessionCacheFacts.

(** ** Splitting strings *)

Lemma str_split_nonempty (sep : ascii) (maxsplit : option nat) (s : string) :
  str_split sep maxsplit s <> [].
Proof.
  revert maxsplit. induction s as [|c s IH]; intros [[|n]|]; simpl; try discriminate.
  - destruct (Ascii.eqb c sep); [discriminate|].
    specialize (IH (Some (S n))). destruct (str_split sep (Some (S n)) s);
      [contradiction|discriminate].
  - destruct (Ascii.eqb c sep); [discriminate|].
    specialize (IH None). destruct (str_split sep None s);
      [contradiction|discriminate].
Qed.

Lemma str_join_cons (sep : ascii) (p : string) (ps : list string) :
  ps <> [] -> str_join sep (p :: ps) = p +:+ String sep (str_join sep ps).
Proof. now destruct ps. Qed.

Lemma str_join_prepend (sep c : ascii) (parts : list string) :
  parts <> [] -> str_join sep (prepend c parts) = String c (str_join sep parts).
Proof. destruct parts as [|p [|q ps]]; [contradiction|reflexivity|reflexivity]. Qed.

(** Splitting loses nothing: joining the parts gives the string back. *)
Lemma str_split_join (sep : ascii) (maxsplit : option nat) (s : string) :
  str_join sep (str_split sep maxsplit s) = s.
Proof.
  revert maxsplit. induction s as [|c s IH]; intros maxsplit.
  - now destruct maxsplit as [[|n]|].
  - assert (Hstep : forall m : option nat,
              str_join sep
                (if Ascii.eqb c sep
                 then EmptyString :: str_split sep (Nat.pred <$> m) s
                 else prepend c (str_split sep m s)) = String c s).
    { intros m. destruct (Ascii.eqb c sep) eqn:Hc.
      - apply Ascii.eqb_eq in Hc. subst c.
        rewrite str_join_cons by apply str_split_nonempty. now rewrite IH.
      - rewrite str_join_prepend by apply str_split_nonempty. now rewrite IH. }
    destruct maxsplit as [[|n]|]; simpl; [reflexivity| |].
    + apply (Hstep (Some (S n))).
    + apply (Hstep None).
Qed.

(** Without a limit, no part holds the separator. *)
Lemma str_split_parts (sep : ascii) (s : string) :
  Forall (fun p => str_contains sep p = false) (str_split sep None s).
Proof.
  induction s as [|c s IH]; simpl.
  - now repeat constructor.
  - destruct (Ascii.eqb c sep) eqn:Hc.
    + now constructor.
    + destruct (str_split sep None s) as [|p ps]; simpl.
      * repeat constructor. simpl. now rewrite Hc.
      * inversion IH; subst. constructor; [|assumption]. simpl. now rewrite Hc.
Qed.

Lemma str_split_zero (sep : ascii) (s : string) :
  str_split sep (Some 0%nat) s = [s].
Proof. now destruct s. Qed.

Lemma str_split_no_sep (sep : ascii) (maxsplit : option nat) (s : string) :
  str_contains sep s = false -> str_split sep maxsplit s = [s].
Proof.
  induction s as [|c s IH]; intros Hc.
  - now destruct maxsplit as [[|n]|].
  - simpl in Hc. apply orb_false_iff in Hc as [Hc Hs].
    destruct maxsplit as [[|n]|]; simpl; [reflexivity| |];
      rewrite Hc, (IH Hs); reflexivity.
Qed.

Lemma prepend_app (c : ascii) (l1 l2 : list string) :
  l1 <> [] -> prepend c (l1 ++ l2) = prepend c l1 ++ l2.
Proof. now destruct l1. Qed.

(** Without a limit, splitting distributes over a separator. *)
Lemma str_split_app (sep : ascii) (a b : string) :
  str_split sep None (a +:+ String sep b)
  = str_split sep None a ++ str_split sep None b.
Proof.
  induction a as [|c a IH]; simpl.
  - now rewrite Ascii.eqb_refl.
  - destruct (Ascii.eqb c sep); rewrite IH; [reflexivity|].
    apply prepend_app, str_split_nonempty.
Qed.

(** The first separator after a separator-free prefix uses up one split. *)
Lemma str_split_head (sep : ascii) (maxsplit : option nat) (a b : string) :
  str_contains sep a = false ->
  maxsplit <> Some 0%nat ->
  str_split sep maxsplit (a +:+ String sep b)
  = a :: str_split sep (Nat.pred <$> maxsplit) b.
Proof.
  intros Ha Hm. induction a as [|c a IH]; simpl.
  - rewrite Ascii.eqb_refl. now destruct maxsplit as [[|n]|].
  - simpl in Ha. apply orb_false_iff in Ha as [Hc Ha].
    rewrite Hc, (IH Ha). now destruct maxsplit as [[|n]|].
Qed.

Lemma str_contains_app (sep : ascii) (a b : string) :
  str_contains sep (a +:+ b) = str_contains sep a || str_contains sep b.
Proof.
  induction a as [|c a IH]; simpl; [reflexivity|].
  now rewrite IH, orb_assoc.
Qed.

Lemma str_contains_app_sep (sep : ascii) (a b : string) :
  str_contains sep (a +:+ String sep b) = true.
Proof.
  induction a as [|c a IH]; simpl.
  - now rewrite Ascii.eqb_refl.
  - rewrite IH. apply orb_true_r.
Qed.

(** A string that contains the separator splits at its first occurrence. *)
Lemma str_contains_first (sep : ascii) (s : string) :
  str_contains sep s = true ->
  exists a b, s = a +:+ String sep b /\ str_contains sep a = false.
Proof.
  induction s as [|c s IH]; simpl; [discriminate|].
  destruct (Ascii.eqb c sep) eqn:Hc; simpl.
  - intros _. apply Ascii.eqb_eq in Hc. subst c. now exists "", s.
  - intros Hs. destruct (IH Hs) as (a & b & -> & Ha).
    exists (String c a), b. simpl. now rewrite Hc, Ha.
Qed.

Lemma after_last_split (sep : ascii) (s part : string) :
  after_last sep s part ->
  list_getitem_last (str_split sep None s) = Ok part.
Proof.
  intros [Hp [-> | [before ->]]]; unfold list_getitem_last.
  - now rewrite (str_split_no_sep _ _ _ Hp).
  - rewrite str_split_app, (str_split_no_sep _ _ _ Hp).
    now rewrite last_snoc.
Qed.

(** ** Session cache *)

Section SessionCacheClaims.
Context `{Externals}.

(** C1, as amended: a cached session is a miss, [get_session_token]
    returning [None], exactly when its expiration is strictly earlier than the
    current UTC time.  The boundary is exclusive: an entry whose expiration
    equals the current time is not expired and is returned.  The world is
    left as it was either way. *)
Theorem expired_session_is_miss (key : string) (entry : pyval) (e : Z) (w : World) :
  cache w !! key = Some entry ->
  expiration_instant entry = Some e ->
  (e < clock w -> SessionCache.get_session_token key w = (Ok PyNone, w)) /\
  (SessionCache.get_session_token key w = (Ok PyNone, w) -> e < clock w) /\
  (e = clock w -> SessionCache.get_session_token key w = (Ok entry, w)).
Proof.
  intros Hk He. rewrite (get_session_token_instant _ _ _ _ Hk He).
  assert (Hentry : entry <> PyNone).
  { intros ->. unfold expiration_instant in He. discriminate He. }
  destruct (e <? clock w) eqn:Hlt.
  - apply Z.ltb_lt in Hlt. split; [reflexivity|]. split; [intros _; exact Hlt | lia].
  - apply Z.ltb_ge in Hlt. split; [lia|]. split; [|reflexivity].
    intros [= Hn]. contradiction.
Qed.

(** C4, as amended: on every store, [cache_session(key, data)] followed at
    once by [get_session_token(key)] returns the form of [data] the store
    hands back, when the expiration of that form is strictly later than the
    current UTC time, and the store then holds that form under [key].  So
    [data] comes back unchanged whenever the store's form of [data] is [data]
    itself: always for a store that keeps the object (the tests'
    [InMemoryCache]), and for [JSONFileCache] when [data] is already what its
    JSON reads back as. *)
Theorem cache_session_round_trip {store : CacheStore}
    (key : string) (data : pyval) (e : Z) (w : World) :
  expiration_instant (stored_form data) = Some e ->
  clock w < e ->
  (_ ← StoredSessionCache.cache_session key data;
   SessionCache.get_session_token key) w
  = (Ok (stored_form data),
     {| cache := <[key := stored_form data]> (cache w); clock := clock w;
        stdin := stdin w; calls := calls w |}) /\
  (stored_form data = data ->
   (_ ← StoredSessionCache.cache_session key data;
    SessionCache.get_session_token key) w
   = (Ok data, {| cache := <[key := data]> (cache w); clock := clock w;
                  stdin := stdin w; calls := calls w |})).
Proof.
  intros He Hlt.
  assert (Hrun : (_ ← StoredSessionCache.cache_session key data;
                  SessionCache.get_session_token key) w
                 = (Ok (stored_form data),
                    {| cache := <[key := stored_form data]> (cache w);
                       clock := clock w; stdin := stdin w; calls := calls w |})).
  { unfold StoredSessionCache.cache_session, store_setitem,
      mbind, M_mbind, M_bind, cache_setitem.
    erewrite get_session_token_instant; [ | apply lookup_insert_eq | exact He ].
    simpl. assert (Hn : (e <? clock w) = false) by (apply Z.ltb_ge; lia).
    now rewrite Hn. }
  split; [exact Hrun|]. intros Hid. rewrite Hrun. now rewrite Hid.
Qed.

(** C6: for a key absent from the store, [get_session_token] returns [None]
    as a normal result: the [KeyError] of the store lookup is caught. *)
Theorem absent_key_is_miss (key : string) (w : World) :
  cache w !! key = None ->
  cache_getitem key w = (Raise (KeyError key), w) /\
  SessionCache.get_session_token key w = (Ok PyNone, w).
Proof.
  intros Hk. split.
  - unfold cache_getitem. now rewrite Hk.
  - unfold SessionCache.get_session_token, mbind, M_mbind, M_bind.
    now rewrite (get_cached_session_miss _ _ Hk).
Qed.

(** C9: the reading methods of the session cache, [get_session_token] with
    its helpers [_get_cached_session] and [_is_expired], leave the world and
    so the store exactly as they found it, whatever they return or raise; an
    entry is as readable after [get_session_token] as before.  [cache_session]
    overwrites the entry under its key and touches nothing else. *)
Theorem session_cache_frame (key : string) (data session_data : pyval) (w : World) :
  snd (SessionCache.get_session_token key w) = w /\
  snd (SessionCache._get_cached_session key w) = w /\
  snd (SessionCache._is_expired session_data w) = w /\
  cache_getitem key (snd (SessionCache.get_session_token key w))
  = cache_getitem key w /\
  SessionCache.cache_session key data w
  = (Ok tt, {| cache := <[key := data]> (cache w); clock := clock w;
               stdin := stdin w; calls := calls w |}).
Proof.
  repeat split.
  - apply get_session_token_frame.
  - apply get_cached_session_frame.
  - apply is_expired_frame.
  - now rewrite get_session_token_frame.
Qed.

(** C10: when the store holds, under the key, a truthy entry that lacks the
    nested field [Credentials.Expiration], [get_session_token] raises: a
    [KeyError] for the missing field, or a [TypeError] where the entry or its
    [Credentials] is no dict.  It does not return a miss. *)
Theorem malformed_entry_raises (key : string) (entry : pyval) (w : World) :
  cache w !! key = Some entry ->
  truthy entry = true ->
  expiration_field entry = None ->
  exists e : exn,
    SessionCache.get_session_token key w = (Raise e, w) /\
    (e = KeyError "Credentials" \/ e = KeyError "Expiration" \/ e = TypeError).
Proof.
  intros Hk Ht Hf. unfold SessionCache.get_session_token, mbind, M_mbind, M_bind.
  rewrite (get_cached_session_hit _ _ _ Hk), Ht.
  unfold SessionCache._is_expired. unfold_M.
  destruct entry as [| | | | | |d]; simpl;
    try (exists TypeError; split; [reflexivity|tauto]).
  simpl in Hf.
  destruct (d !! "Credentials") as [c|];
    [|exists (KeyError "Credentials"); split; [reflexivity|tauto]].
  destruct c as [| | | | | |c]; simpl;
    try (exists TypeError; split; [reflexivity|tauto]).
  rewrite Hf. exists (KeyError "Expiration"). split; [reflexivity|tauto].
Qed.

End SessionCacheClaims.

(** C1 as stated fails on the boundary: an entry whose expiration equals the
    current time satisfies [expiration <= now], and [get_session_token] still
    returns it, because [_is_expired] tests [expiration < now]. *)
Lemma expired_boundary_counterexample :
  cache boundary_world !! "key"
  = Some (session_expiring_at (utc_datetime t_expiration)) /\
  expiration_instant (H := test_externals)
    (session_expiring_at (utc_datetime t_expiration)) = Some t_expiration /\
  t_expiration <= clock boundary_world /\
  SessionCache.get_session_token (H := test_externals) "key" boundary_world
  = (Ok (session_expiring_at (utc_datetime t_expiration)), boundary_world) /\
  SessionCache.get_session_token (H := test_externals) "key" boundary_world
  <> (Ok PyNone, boundary_world).
Proof.
  assert (Hk : cache boundary_world !! "key"
               = Some (session_expiring_at (utc_datetime t_expiration)))
    by apply lookup_singleton_eq.
  assert (He : expiration_instant (H := test_externals)
                 (session_expiring_at (utc_datetime t_expiration))
               = Some t_expiration).
  { unfold expiration_instant, expiration_field, session_expiring_at.
    rewrite lookup_singleton_eq. rewrite lookup_singleton_eq. reflexivity. }
  assert (Hr := get_session_token_instant (H := test_externals) _ _ _ _ Hk He).
  change (clock boundary_world) with t_expiration in Hr.
  rewrite Z.ltb_irrefl in Hr.
  repeat split; try assumption.
  - change (clock boundary_world) with t_expiration. lia.
  - rewrite Hr. discriminate.
Qed.

(** The test fixture, one hour after its expiration: a miss; and read at
    the very instant of its expiration: a hit. *)
Lemma expired_session_is_miss_witness :
  let w := {| cache := {[ "key" := SESSION_DATA ]};
              clock := t_expiration + 3600000000; stdin := []; calls := [] |} in
  let w0 := {| cache := {[ "key" := SESSION_DATA ]};
               clock := t_expiration; stdin := []; calls := [] |} in
  t_expiration < clock w /\
  SessionCache.get_session_token (H := test_externals) "key" w = (Ok PyNone, w) /\
  SessionCache.get_session_token (H := test_externals) "key" w0
  = (Ok SESSION_DATA, w0).
Proof.
  intros w w0. split; [ vm_compute; reflexivity | ]. split.
  - apply (expired_session_is_miss (H := test_externals)
             "key" SESSION_DATA t_expiration w).
    + vm_compute. reflexivity.
    + vm_compute. reflexivity.
    + vm_compute. reflexivity.
  - apply (expired_session_is_miss (H := test_externals)
             "key" SESSION_DATA t_expiration w0).
    + vm_compute. reflexivity.
    + vm_compute. reflexivity.
    + reflexivity.
Defined.

(** C4 as stated fails on the store the provider is created with: a session
    record as STS returns it, expiring an hour from now, comes back from
    [JSONFileCache] with its expiration as a string, not as the datetime it
    was cached with. *)
Lemma round_trip_json_store_counterexample :
  expiration_instant (H := test_externals) STS_SESSION = Some t_expiration /\
  clock (empty_world (t_expiration - 3600000000)) < t_expiration /\
  fst ((_ ← StoredSessionCache.cache_session
              (store := JSONFileCache test_strftime) "key" STS_SESSION;
        SessionCache.get_session_token (H := test_externals) "key")
         (empty_world (t_expiration - 3600000000)))
  = Ok (json_form test_strftime STS_SESSION) /\
  expiration_field (json_form test_strftime STS_SESSION)
  = Some (PyStr "2020-10-01T17:08:49UTC") /\
  fst ((_ ← StoredSessionCache.cache_session
              (store := JSONFileCache test_strftime) "key" STS_SESSION;
        SessionCache.get_session_token (H := test_externals) "key")
         (empty_world (t_expiration - 3600000000)))
  <> Ok STS_SESSION.
Proof.
  assert (Hrun :
    fst ((_ ← StoredSessionCache.cache_session
                (store := JSONFileCache test_strftime) "key" STS_SESSION;
          SessionCache.get_session_token (H := test_externals) "key")
           (empty_world (t_expiration - 3600000000)))
    = Ok (json_form test_strftime STS_SESSION)).
  { vm_compute. reflexivity. }
  split; [ vm_compute; reflexivity | ].
  split; [ vm_compute; reflexivity | ].
  split; [ exact Hrun | ].
  split; [ vm_compute; reflexivity | ].
  rewrite Hrun. intros Heq.
  pose proof (f_equal (fun r => match r with
                                | Ok v => expiration_field v
                                | Raise _ => None
                                end) Heq) as Hf.
  vm_compute in Hf. discriminate Hf.
Qed.

(** The test fixture cached one hour before its expiration
    ([test_cache_manager_warm]): the in-memory store hands it back, and so
    does the JSON store, the fixture's expiration being a string already. *)
Lemma cache_session_round_trip_witness :
  let w := empty_world (t_expiration - 3600000000) in
  clock w < t_expiration /\
  fst ((_ ← StoredSessionCache.cache_session (store := InMemoryCache)
              "key" SESSION_DATA;
        SessionCache.get_session_token (H := test_externals) "key") w)
  = Ok SESSION_DATA /\
  fst ((_ ← StoredSessionCache.cache_session
              (store := JSONFileCache test_strftime) "key" SESSION_DATA;
        SessionCache.get_session_token (H := test_externals) "key") w)
  = Ok SESSION_DATA.
Proof.
  intros w. split; [ vm_compute; reflexivity | ]. split.
  - rewrite (proj1 (cache_session_round_trip (H := test_externals)
                      (store := InMemoryCache)
                      "key" SESSION_DATA t_expiration w eq_refl eq_refl)).
    reflexivity.
  - rewrite (proj2 (cache_session_round_trip (H := test_externals)
                      (store := JSONFileCache test_strftime)
                      "key" SESSION_DATA t_expiration w eq_refl eq_refl)
               eq_refl).
    reflexivity.
Defined.

(** [test_cache_manager]: an empty store. *)
Lemma absent_key_is_miss_witness :
  SessionCache.get_session_token (H := test_externals) "key" (empty_world 0)
  = (Ok PyNone, empty_world 0).
Proof.
  apply (absent_key_is_miss (H := test_externals) "key" (empty_world 0)).
  reflexivity.
Defined.

(** A record with an access key and no [Credentials]. *)
Lemma malformed_entry_raises_witness :
  truthy (PyDict {[ "AccessKeyId" := PyStr "AKIA" ]}) = true /\
  expiration_field (PyDict {[ "AccessKeyId" := PyStr "AKIA" ]}) = None /\
  exists e : exn,
    SessionCache.get_session_token (H := test_externals) "key" malformed_world
    = (Raise e, malformed_world) /\
    (e = KeyError "Credentials" \/ e = KeyError "Expiration" \/ e = TypeError).
Proof.
  split; [ vm_compute; reflexivity | ].
  split; [ vm_compute; reflexivity | ].
  apply (malformed_entry_raises (H := test_externals) "key"
           (PyDict {[ "AccessKeyId" := PyStr "AKIA" ]}) malformed_world).
  - vm_compute. reflexivity.
  - vm_compute. reflexivity.
  - vm_compute. reflexivity.
Defined.

(** ** MFA session factory *)

Section FactoryFacts.
Context `{Externals}.

Lemma get_account_and_user_ok (sts_client : StsClient)
    (identity : gmap string string) (account arn user : string) (w : World) :
  sts_get_caller_identity sts_client = Returns identity ->
  identity !! "Account" = Some account ->
  identity !! "Arn" = Some arn ->
  after_last "/" arn user ->
  _get_account_and_user sts_client w
  = (Ok (account, user),
     {| cache := cache w; clock := clock w; stdin := stdin w;
        calls := calls w ++ [GetCallerIdentity] |}).
Proof.
  intros Hid Hacc Harn Huser. unfold _get_account_and_user. unfold_M.
  rewrite Hid, Harn, Hacc, (after_last_split _ _ _ Huser). reflexivity.
Qed.

(** A fresh exchange, once the code to send is known. *)
Lemma create_session_ok (self : CachedMfaSessionFactory.t)
    (mfa_token : option string) (code : string) (w w1 : World)
    (identity : gmap string string) (account arn user : string) (resp : pyval) :
  match mfa_token with
  | Some tok => if String.eqb tok "" then input w else (Ok tok, w)
  | None => input w
  end = (Ok code, w1) ->
  sts_get_caller_identity (CachedMfaSessionFactory._sts_client self)
  = Returns identity ->
  identity !! "Account" = Some account ->
  identity !! "Arn" = Some arn ->
  after_last "/" arn user ->
  sts_get_session_token (CachedMfaSessionFactory._sts_client self) 43200
    ("arn:aws:iam::" +:+ account +:+ ":mfa/" +:+ user) code = Returns resp ->
  CachedMfaSessionFactory._create_session self mfa_token w
  = (Ok resp,
     {| cache := <[CachedMfaSessionFactory.SESSION_KEY := resp]> (cache w1);
        clock := clock w1; stdin := stdin w1;
        calls := calls w1 ++ [GetCallerIdentity;
                   GetSessionToken 43200
                     ("arn:aws:iam::" +:+ account +:+ ":mfa/" +:+ user) code] |}).
Proof.
  intros Hcode Hid Hacc Harn Huser Hresp.
  unfold CachedMfaSessionFactory._create_session.
  unfold mbind at 1, M_mbind at 1, M_bind at 1.
  replace (match mfa_token with
           | Some tok => if String.eqb tok "" then input else mret tok
           | None => input
           end w) with (Ok code, w1).
  2:{ rewrite <- Hcode. destruct mfa_token as [tok|]; [|reflexivity].
      now destruct (String.eqb tok ""). }
  unfold mbind at 1, M_mbind at 1, M_bind at 1.
  rewrite (get_account_and_user_ok _ _ _ _ _ _ Hid Hacc Harn Huser).
  change (td_seconds CachedMfaSessionFactory.MFA_SESSION_DURATION) with 43200.
  unfold SessionCache.cache_session. unfold_M. cbn [calls cache clock stdin].
  rewrite Hresp. cbn [calls cache clock stdin].
  now rewrite <- app_assoc.
Qed.

Lemma factory_hit (self : CachedMfaSessionFactory.t) (mfa_token : option string)
    (entry : pyval) (e : Z) (w : World) :
  cache w !! CachedMfaSessionFactory.SESSION_KEY = Some entry ->
  expiration_instant entry = Some e ->
  clock w < e ->
  CachedMfaSessionFactory.get_session_token self mfa_token w = (Ok entry, w).
Proof.
  intros Hk He Hlt. unfold CachedMfaSessionFactory.get_session_token.
  unfold mbind, M_mbind, M_bind.
  rewrite (get_session_token_instant _ _ _ _ Hk He).
  assert (Hn : (e <? clock w) = false) by (apply Z.ltb_ge; lia).
  rewrite Hn.
  assert (Ht : truthy entry = true).
  { unfold expiration_instant in He.
    destruct (expiration_field entry) as [x|] eqn:Hx; [|discriminate].
    eapply expiration_field_truthy; eauto. }
  now rewrite Ht.
Qed.

Lemma factory_miss (self : CachedMfaSessionFactory.t) (mfa_token : option string)
    (v : pyval) (w : World) :
  fst (SessionCache.get_session_token CachedMfaSessionFactory.SESSION_KEY w)
  = Ok v ->
  truthy v = false ->
  CachedMfaSessionFactory.get_session_token self mfa_token w
  = CachedMfaSessionFactory._create_session self mfa_token w.
Proof.
  intros Hv Ht. unfold CachedMfaSessionFactory.get_session_token.
  unfold mbind, M_mbind, M_bind.
  pose proof (get_session_token_frame CachedMfaSessionFactory.SESSION_KEY w) as Hw.
  destruct (SessionCache.get_session_token _ w) as [r w'].
  simpl in Hv, Hw. subst r w'. now rewrite Ht.
Qed.

End FactoryFacts.

(** The factory over a given store: on the in-memory store it is the factory
    as modelled above; on any store a fresh exchange returns the response and
    leaves the store's form of it under the key. *)
Section StoredFactoryFacts.
Context `{Externals} {store : CacheStore}.

Lemma stored_create_session_ok (self : CachedMfaSessionFactory.t)
    (mfa_token : option string) (code : string) (w w1 : World)
    (identity : gmap string string) (account arn user : string) (resp : pyval) :
  match mfa_token with
  | Some tok => if String.eqb tok "" then input w else (Ok tok, w)
  | None => input w
  end = (Ok code, w1) ->
  sts_get_caller_identity (CachedMfaSessionFactory._sts_client self)
  = Returns identity ->
  identity !! "Account" = Some account ->
  identity !! "Arn" = Some arn ->
  after_last "/" arn user ->
  sts_get_session_token (CachedMfaSessionFactory._sts_client self) 43200
    ("arn:aws:iam::" +:+ account +:+ ":mfa/" +:+ user) code = Returns resp ->
  StoredMfaSessionFactory._create_session self mfa_token w
  = (Ok resp,
     {| cache := <[CachedMfaSessionFactory.SESSION_KEY := stored_form resp]>
                   (cache w1);
        clock := clock w1; stdin := stdin w1;
        calls := calls w1 ++ [GetCallerIdentity;
                   GetSessionToken 43200
                     ("arn:aws:iam::" +:+ account +:+ ":mfa/" +:+ user) code] |}).
Proof.
  intros Hcode Hid Hacc Harn Huser Hresp.
  unfold StoredMfaSessionFactory._create_session.
  unfold mbind at 1, M_mbind at 1, M_bind at 1.
  replace (match mfa_token with
           | Some tok => if String.eqb tok "" then input else mret tok
           | None => input
           end w) with (Ok code, w1).
  2:{ rewrite <- Hcode. destruct mfa_token as [tok|]; [|reflexivity].
      now destruct (String.eqb tok ""). }
  unfold mbind at 1, M_mbind at 1, M_bind at 1.
  rewrite (get_account_and_user_ok _ _ _ _ _ _ Hid Hacc Harn Huser).
  change (td_seconds CachedMfaSessionFactory.MFA_SESSION_DURATION) with 43200.
  unfold StoredSessionCache.cache_session, store_setitem. unfold_M.
  cbn [calls cache clock stdin].
  rewrite Hresp. cbn [calls cache clock stdin].
  now rewrite <- app_assoc.
Qed.

Lemma stored_factory_hit (self : CachedMfaSessionFactory.t)
    (mfa_token : option string) (entry : pyval) (e : Z) (w : World) :
  cache w !! CachedMfaSessionFactory.SESSION_KEY = Some entry ->
  expiration_instant entry = Some e ->
  clock w < e ->
  StoredMfaSessionFactory.get_session_token self mfa_token w = (Ok entry, w).
Proof.
  intros Hk He Hlt. unfold StoredMfaSessionFactory.get_session_token.
  unfold mbind, M_mbind, M_bind.
  rewrite (get_session_token_instant _ _ _ _ Hk He).
  assert (Hn : (e <? clock w) = false) by (apply Z.ltb_ge; lia).
  rewrite Hn.
  assert (Ht : truthy entry = true).
  { unfold expiration_instant in He.
    destruct (expiration_field entry) as [x|] eqn:Hx; [|discriminate].
    eapply expiration_field_truthy; eauto. }
  now rewrite Ht.
Qed.

Lemma stored_factory_miss (self : CachedMfaSessionFactory.t)
    (mfa_token : option string) (v : pyval) (w : World) :
  fst (SessionCache.get_session_token CachedMfaSessionFactory.SESSION_KEY w)
  = Ok v ->
  truthy v = false ->
  StoredMfaSessionFactory.get_session_token self mfa_token w
  = StoredMfaSessionFactory._create_session self mfa_token w.
Proof.
  intros Hv Ht. unfold StoredMfaSessionFactory.get_session_token.
  unfold mbind, M_mbind, M_bind.
  pose proof (get_session_token_frame CachedMfaSessionFactory.SESSION_KEY w) as Hw.
  destruct (SessionCache.get_session_token _ w) as [r w'].
  simpl in Hv, Hw. subst r w'. now rewrite Ht.
Qed.

End StoredFactoryFacts.

Lemma stored_factory_in_memory `{Externals} (self : CachedMfaSessionFactory.t)
    (mfa_token : option string) (w : World) :
  StoredMfaSessionFactory.get_session_token (store := InMemoryCache)
    self mfa_token w
  = CachedMfaSessionFactory.get_session_token self mfa_token w.
Proof. reflexivity. Qed.

Section FactoryClaims.
Context `{Externals}.

(** C2: on a cache miss and with an MFA code supplied, [get_session_token]
    calls get-caller-identity, takes the account and the part of the identity
    ARN after its last [/] as user name, asks for a session token with
    [DurationSeconds = 43200], [SerialNumber = arn:aws:iam::{account}:mfa/{user}]
    and the supplied code, stores the response under ["temporary_session"] and
    returns that response. *)
Theorem miss_exchanges_and_caches (self : CachedMfaSessionFactory.t)
    (tok : string) (v : pyval) (w : World)
    (identity : gmap string string) (account arn user : string) (resp : pyval) :
  fst (SessionCache.get_session_token CachedMfaSessionFactory.SESSION_KEY w)
  = Ok v ->
  truthy v = false ->
  tok <> "" ->
  sts_get_caller_identity (CachedMfaSessionFactory._sts_client self)
  = Returns identity ->
  identity !! "Account" = Some account ->
  identity !! "Arn" = Some arn ->
  after_last "/" arn user ->
  sts_get_session_token (CachedMfaSessionFactory._sts_client self) 43200
    ("arn:aws:iam::" +:+ account +:+ ":mfa/" +:+ user) tok = Returns resp ->
  CachedMfaSessionFactory.get_session_token self (Some tok) w
  = (Ok resp,
     {| cache := <["temporary_session" := resp]> (cache w);
        clock := clock w; stdin := stdin w;
        calls := calls w ++ [GetCallerIdentity;
                   GetSessionToken 43200
                     ("arn:aws:iam::" +:+ account +:+ ":mfa/" +:+ user) tok] |}).
Proof.
  intros Hv Ht Htok Hid Hacc Harn Huser Hresp.
  rewrite (factory_miss _ _ _ _ Hv Ht).
  apply (create_session_ok self (Some tok) tok w w identity account arn user resp);
    try assumption.
  apply String.eqb_neq in Htok. now rewrite Htok.
Qed.

(** C3: when the store holds an unexpired entry under the fixed key,
    [get_session_token] returns that entry and leaves the world untouched: no
    call reaches the STS client.  A second call, made from where the first one
    ended and at a later moment at which the entry is still unexpired, returns
    the entry as well; after both calls the store and the call log are what
    they were, so the number of get-session-token and of get-caller-identity
    calls made so far has not moved. *)
Theorem warm_cache_makes_no_call (self : CachedMfaSessionFactory.t)
    (mfa1 mfa2 : option string) (entry : pyval) (e t2 : Z) (w : World) :
  cache w !! CachedMfaSessionFactory.SESSION_KEY = Some entry ->
  expiration_instant entry = Some e ->
  clock w < e ->
  t2 < e ->
  let r1 := CachedMfaSessionFactory.get_session_token self mfa1 w in
  let r2 := CachedMfaSessionFactory.get_session_token self mfa2
              (at_time t2 (snd r1)) in
  r1 = (Ok entry, w) /\
  fst r2 = Ok entry /\
  cache (snd r2) = cache w /\
  calls (snd r2) = calls w /\
  call_count is_get_session_token (snd r2) = call_count is_get_session_token w /\
  call_count is_get_caller_identity (snd r2)
  = call_count is_get_caller_identity w.
Proof.
  intros Hk He Hlt Hlt2 r1 r2.
  assert (H1 : r1 = (Ok entry, w)) by now apply (factory_hit self mfa1 entry e w).
  assert (H2 : r2 = (Ok entry, at_time t2 w)).
  { subst r2. rewrite H1. now apply (factory_hit self mfa2 entry e (at_time t2 w)). }
  rewrite H2. now repeat split.
Qed.

End FactoryClaims.

(** The scenario of [test_temporary_credentials_from_session] in general and
    on every store: a first call on a cold cache makes the exchange and
    returns the response; a second call, while the store's form of that
    response is unexpired, returns that form (the response itself on a store
    that keeps the object) and makes no call, so the log grows by one
    get-caller-identity and one get-session-token call over both. *)
Lemma cold_then_warm_single_exchange `{Externals} {store : CacheStore}
    (self : CachedMfaSessionFactory.t) (tok : string) (mfa2 : option string)
    (v : pyval) (w : World) (identity : gmap string string)
    (account arn user : string) (resp : pyval) (e t2 : Z) :
  fst (SessionCache.get_session_token CachedMfaSessionFactory.SESSION_KEY w)
  = Ok v ->
  truthy v = false ->
  tok <> "" ->
  sts_get_caller_identity (CachedMfaSessionFactory._sts_client self)
  = Returns identity ->
  identity !! "Account" = Some account ->
  identity !! "Arn" = Some arn ->
  after_last "/" arn user ->
  sts_get_session_token (CachedMfaSessionFactory._sts_client self) 43200
    ("arn:aws:iam::" +:+ account +:+ ":mfa/" +:+ user) tok = Returns resp ->
  expiration_instant (stored_form resp) = Some e ->
  t2 < e ->
  let r1 := StoredMfaSessionFactory.get_session_token self (Some tok) w in
  let r2 := StoredMfaSessionFactory.get_session_token self mfa2
              (at_time t2 (snd r1)) in
  fst r1 = Ok resp /\ fst r2 = Ok (stored_form resp) /\
  calls (snd r2)
  = calls w ++ [GetCallerIdentity;
                GetSessionToken 43200
                  ("arn:aws:iam::" +:+ account +:+ ":mfa/" +:+ user) tok].
Proof.
  intros Hv Ht Htok Hid Hacc Harn Huser Hresp He Hlt r1 r2.
  assert (H1 : r1 = (Ok resp,
     {| cache := <[CachedMfaSessionFactory.SESSION_KEY := stored_form resp]>
                   (cache w);
        clock := clock w; stdin := stdin w;
        calls := calls w ++ [GetCallerIdentity;
                   GetSessionToken 43200
                     ("arn:aws:iam::" +:+ account +:+ ":mfa/" +:+ user) tok] |})).
  { subst r1. rewrite (stored_factory_miss _ _ _ _ Hv Ht).
    apply (stored_create_session_ok self (Some tok) tok w w identity account
             arn user resp); try assumption.
    apply String.eqb_neq in Htok. now rewrite Htok. }
  subst r2. rewrite H1. cbn [snd fst].
  erewrite (stored_factory_hit self mfa2 (stored_form resp) e);
    [ now repeat split | | exact He | exact Hlt ].
  apply lookup_insert_eq.
Qed.

(** Without a code, [_create_session] reads it from the terminal and sends
    what it read. *)
Lemma miss_prompts_for_code `{Externals}
    (self : CachedMfaSessionFactory.t) (line : string) (rest : list string)
    (v : pyval) (w : World) (identity : gmap string string)
    (account arn user : string) (resp : pyval) :
  fst (SessionCache.get_session_token CachedMfaSessionFactory.SESSION_KEY w)
  = Ok v ->
  truthy v = false ->
  stdin w = line :: rest ->
  sts_get_caller_identity (CachedMfaSessionFactory._sts_client self)
  = Returns identity ->
  identity !! "Account" = Some account ->
  identity !! "Arn" = Some arn ->
  after_last "/" arn user ->
  sts_get_session_token (CachedMfaSessionFactory._sts_client self) 43200
    ("arn:aws:iam::" +:+ account +:+ ":mfa/" +:+ user) line = Returns resp ->
  CachedMfaSessionFactory.get_session_token self None w
  = (Ok resp,
     {| cache := <["temporary_session" := resp]> (cache w);
        clock := clock w; stdin := rest;
        calls := calls w ++ [GetCallerIdentity;
                   GetSessionToken 43200
                     ("arn:aws:iam::" +:+ account +:+ ":mfa/" +:+ user) line] |}).
Proof.
  intros Hv Ht Hin Hid Hacc Harn Huser Hresp.
  rewrite (factory_miss _ _ _ _ Hv Ht).
  apply (create_session_ok self None line w
           {| cache := cache w; clock := clock w; stdin := rest;
              calls := calls w |} identity account arn user resp);
    try assumption.
  unfold input. now rewrite Hin.
Qed.

Lemma cold_then_warm_single_exchange_witness :
  let w := empty_world (t_expiration - 3600000000) in
  let r1 := StoredMfaSessionFactory.get_session_token (H := test_externals)
              (store := JSONFileCache test_strftime)
              granting_factory (Some "token") w in
  let r2 := StoredMfaSessionFactory.get_session_token (H := test_externals)
              (store := JSONFileCache test_strftime)
              granting_factory None (at_time (t_expiration - 1) (snd r1)) in
  fst r1 = Ok STS_SESSION /\
  fst r2 = Ok (json_form test_strftime STS_SESSION) /\
  calls (snd r2)
  = [GetCallerIdentity;
     GetSessionToken 43200 "arn:aws:iam::123456789012:mfa/fred" "token"] /\
  call_count is_get_session_token (snd r2) = 1%nat.
Proof.
  intros w.
  destruct (cold_then_warm_single_exchange (H := test_externals)
              (store := JSONFileCache test_strftime) granting_factory
              "token" None PyNone w
              (<["Arn" := "arn:aws:iam::123456789012:user/ops/fred"]>
                 (<["Account" := "123456789012"]> ∅))
              "123456789012" "arn:aws:iam::123456789012:user/ops/fred" "fred"
              STS_SESSION t_expiration (t_expiration - 1)) as (H1 & H2 & H3).
  - vm_compute. reflexivity.
  - reflexivity.
  - discriminate.
  - reflexivity.
  - vm_compute. reflexivity.
  - vm_compute. reflexivity.
  - split; [ reflexivity | right ].
    now exists "arn:aws:iam::123456789012:user/ops".
  - reflexivity.
  - vm_compute. reflexivity.
  - vm_compute. reflexivity.
  - cbv zeta. unfold call_count. rewrite H1, H2, H3. repeat split.
Defined.

(** [test_temporary_credentials_from_session]: an empty store, the MFA code
    ["token"], caller identity [{Arn: arn, Account: 123456789012}]. *)
Lemma miss_exchanges_and_caches_witness :
  let w := empty_world (t_expiration - 3600000000) in
  CachedMfaSessionFactory.get_session_token (H := test_externals)
    test_factory (Some "token") w
  = (Ok SESSION_DATA,
     {| cache := {[ "temporary_session" := SESSION_DATA ]};
        clock := clock w; stdin := [];
        calls := [GetCallerIdentity;
                  GetSessionToken 43200 "arn:aws:iam::123456789012:mfa/arn"
                    "token"] |}).
Proof.
  intros w.
  apply (miss_exchanges_and_caches (H := test_externals) test_factory "token"
           PyNone w (<["Arn" := "arn"]> (<["Account" := "123456789012"]> ∅))
           "123456789012" "arn" "arn" SESSION_DATA).
  - vm_compute. reflexivity.
  - reflexivity.
  - discriminate.
  - reflexivity.
  - vm_compute. reflexivity.
  - vm_compute. reflexivity.
  - split; [ reflexivity | now left ].
  - reflexivity.
Defined.

(** The same test, continued: the store warmed by the first call, whose log
    counts one get-session-token call, and two further calls an hour apart. *)
Lemma warm_cache_makes_no_call_witness :
  let w := {| cache := {[ "temporary_session" := SESSION_DATA ]};
              clock := t_expiration - 3600000000; stdin := [];
              calls := [GetCallerIdentity;
                        GetSessionToken 43200
                          "arn:aws:iam::123456789012:mfa/arn" "token"] |} in
  let r1 := CachedMfaSessionFactory.get_session_token (H := test_externals)
              test_factory None w in
  let r2 := CachedMfaSessionFactory.get_session_token (H := test_externals)
              test_factory None (at_time (t_expiration - 1) (snd r1)) in
  call_count is_get_session_token w = 1%nat /\
  fst r1 = Ok SESSION_DATA /\ fst r2 = Ok SESSION_DATA /\
  call_count is_get_session_token (snd r2) = 1%nat.
Proof.
  intros w.
  destruct (warm_cache_makes_no_call (H := test_externals) test_factory
              None None SESSION_DATA t_expiration (t_expiration - 1) w)
    as (H1 & H2 & _ & _ & Hn & _).
  - vm_compute. reflexivity.
  - vm_compute. reflexivity.
  - vm_compute. reflexivity.
  - vm_compute. reflexivity.
  - cbv zeta. rewrite Hn, H2, H1. repeat split.
Defined.

(** ** ARN parser *)

Lemma get_resource_seven (e0 e1 e2 e3 e4 e5 e6 : string) :
  ARN._get_resource [e0; e1; e2; e3; e4; e5; e6] = Ok (Some e5, e6).
Proof. reflexivity. Qed.

Lemma get_resource_six_plain (e0 e1 e2 e3 e4 e5 : string) :
  str_contains "/" e5 = false ->
  ARN._get_resource [e0; e1; e2; e3; e4; e5] = Ok (None, e5).
Proof. intros H5. unfold ARN._get_resource. simpl. now rewrite H5. Qed.

Lemma get_resource_six_slash (e0 e1 e2 e3 e4 ty res : string) :
  str_contains "/" ty = false ->
  ARN._get_resource [e0; e1; e2; e3; e4; ty +:+ String "/" res]
  = Ok (Some ty, res).
Proof.
  intros Hty. unfold ARN._get_resource. simpl.
  rewrite str_contains_app_sep. simpl.
  rewrite (str_split_head "/" (Some 1%nat) ty res Hty) by discriminate.
  simpl. now rewrite str_split_zero.
Qed.

(** C5: with seven segments between colons, the resource type and the
    resource are segments 5 and 6 as they stand; with six, segment 5 is cut at
    its first [/] into resource type and resource when it has one (and it then
    has such a cut), and is the resource, without a type, when it has none.
    Partition, service, region and account are segments 1 to 4. *)
Theorem arn_parsing (s : string) :
  (forall e0 e1 e2 e3 e4 e5 e6 : string,
     str_split ":" None s = [e0; e1; e2; e3; e4; e5; e6] ->
     ARN.__init__ s = Ok (ARN.mk s e0 e1 e2 e3 e4 (Some e5) e6)) /\
  (forall e0 e1 e2 e3 e4 e5 : string,
     str_split ":" None s = [e0; e1; e2; e3; e4; e5] ->
     (str_contains "/" e5 = true ->
      exists ty res, e5 = ty +:+ String "/" res /\ str_contains "/" ty = false) /\
     (forall ty res : string,
        e5 = ty +:+ String "/" res ->
        str_contains "/" ty = false ->
        ARN.__init__ s = Ok (ARN.mk s e0 e1 e2 e3 e4 (Some ty) res)) /\
     (str_contains "/" e5 = false ->
      ARN.__init__ s = Ok (ARN.mk s e0 e1 e2 e3 e4 None e5))).
Proof.
  split.
  - intros e0 e1 e2 e3 e4 e5 e6 Hs. unfold ARN.__init__. now rewrite Hs.
  - intros e0 e1 e2 e3 e4 e5 Hs. split; [|split].
    + apply str_contains_first.
    + intros ty res -> Hty. unfold ARN.__init__. rewrite Hs.
      cbn [list_getitem lookup list_lookup mbind result_mbind result_bind].
      now rewrite (get_resource_six_slash _ _ _ _ _ _ _ Hty).
    + intros H5. unfold ARN.__init__. rewrite Hs.
      cbn [list_getitem lookup list_lookup mbind result_mbind result_bind].
      now rewrite (get_resource_six_plain _ _ _ _ _ _ H5).
Qed.

(** The three ARNs of [tests/arn_test.py], and one without a slash. *)
Lemma arn_parsing_witness :
  ARN.__init__ "arn:aws:iam::123456789012:role:common-roles/developer"
  = Ok (ARN.mk "arn:aws:iam::123456789012:role:common-roles/developer"
          "arn" "aws" "iam" "" "123456789012"
          (Some "role") "common-roles/developer") /\
  ARN.__init__ "arn:aws:iam::123456789012:role/common-roles/developer"
  = Ok (ARN.mk "arn:aws:iam::123456789012:role/common-roles/developer"
          "arn" "aws" "iam" "" "123456789012"
          (Some "role") "common-roles/developer") /\
  ARN.__init__ "arn:aws:iam::123456789012:role/administrator"
  = Ok (ARN.mk "arn:aws:iam::123456789012:role/administrator"
          "arn" "aws" "iam" "" "123456789012" (Some "role") "administrator") /\
  ARN.__init__ "arn:aws:s3:::bucket"
  = Ok (ARN.mk "arn:aws:s3:::bucket" "arn" "aws" "s3" "" "" None "bucket").
Proof.
  split; [|split; [|split]].
  - apply (proj1 (arn_parsing _)). reflexivity.
  - refine (proj1 (proj2 (proj2 (arn_parsing _) "arn" "aws" "iam" ""
              "123456789012" "role/common-roles/developer" _))
              "role" "common-roles/developer" _ _); reflexivity.
  - refine (proj1 (proj2 (proj2 (arn_parsing _) "arn" "aws" "iam" ""
              "123456789012" "role/administrator" _))
              "role" "administrator" _ _); reflexivity.
  - refine (proj2 (proj2 (proj2 (arn_parsing _) "arn" "aws" "s3" "" ""
              "bucket" _)) _); reflexivity.
Defined.

(** ** SSO session provider *)

(** C7: on every SSO provider and in every world, reading
    [temporary_credentials] raises [NotImplementedError]; it returns no value
    and changes nothing. *)
Theorem sso_temporary_credentials_unsupported
    (self : SSOSessionProvider.t) (w : World) :
  SSOSessionProvider.temporary_credentials self w
  = (Raise (NotImplementedError "SSO session uses token, not credentials"), w) /\
  (forall (v : pyval) (w' : World),
     SSOSessionProvider.temporary_credentials self w <> (Ok v, w')).
Proof.
  split.
  - reflexivity.
  - intros v w' Hv. unfold SSOSessionProvider.temporary_credentials, raise in Hv.
    inversion Hv.
Qed.

Lemma list_getitem_raises (l : list string) (i : nat) (e : exn) :
  list_getitem l i = Raise e -> e = IndexError.
Proof. unfold list_getitem. destruct (l !! i); [discriminate|]. now intros [= <-]. Qed.

Lemma get_resource_raises (elements : list string) (e : exn) :
  ARN._get_resource elements = Raise e -> e = IndexError.
Proof.
  unfold ARN._get_resource, mbind, result_mbind, result_bind, mret, result_ret.
  repeat match goal with
         | |- context [match list_getitem ?l ?i with _ => _ end] =>
             let Hx := fresh "Hx" in
             destruct (list_getitem l i) eqn:Hx;
             [ | intros [= <-]; exact (list_getitem_raises _ _ _ Hx) ]
         | |- context [if ?b then _ else _] => destruct b
         end; discriminate.
Qed.

(** The parser raises nothing but [IndexError]. *)
Lemma arn_init_raises (s : string) (e : exn) :
  ARN.__init__ s = Raise e -> e = IndexError.
Proof.
  unfold ARN.__init__, mbind, result_mbind, result_bind, mret, result_ret.
  repeat match goal with
         | |- context [match list_getitem ?l ?i with _ => _ end] =>
             let Hx := fresh "Hx" in
             destruct (list_getitem l i) eqn:Hx;
             [ | intros [= <-]; exact (list_getitem_raises _ _ _ Hx) ]
         end.
  destruct (ARN._get_resource _) as [[rt r]|x] eqn:Hr; [discriminate|].
  intros [= <-]. exact (get_resource_raises _ _ Hr).
Qed.

(** The ARN built for an enumerated role parses back to its account and its
    role name, when neither holds a colon. *)
Lemma arn_of_role (account_id role_name : string) :
  str_contains ":" account_id = false ->
  str_contains ":" role_name = false ->
  ARN.__init__ ("arn:aws:iam::" +:+ account_id +:+ ":role/" +:+ role_name)
  = Ok (ARN.mk ("arn:aws:iam::" +:+ account_id +:+ ":role/" +:+ role_name)
          "arn" "aws" "iam" "" account_id (Some "role") role_name).
Proof.
  intros Ha Hr.
  assert (Hsplit :
    str_split ":" None ("arn:aws:iam::" +:+ account_id +:+ ":role/" +:+ role_name)
    = ["arn"; "aws"; "iam"; ""; account_id; "role/" +:+ role_name]).
  { change ("arn:aws:iam::" +:+ account_id +:+ ":role/" +:+ role_name)
      with ("arn" +:+ String ":" ("aws" +:+ String ":" ("iam" +:+ String ":"
              ("" +:+ String ":"
                 (account_id +:+ String ":" ("role/" +:+ role_name)))))).
    rewrite !str_split_head by (assumption || reflexivity || discriminate).
    cbn [fmap option_fmap option_map].
    rewrite str_split_no_sep; [reflexivity|].
    rewrite str_contains_app. now rewrite Hr. }
  unfold ARN.__init__. rewrite Hsplit.
  cbn [list_getitem lookup list_lookup mbind result_mbind result_bind].
  change ("role/" +:+ role_name) with ("role" +:+ String "/" role_name).
  now rewrite get_resource_six_slash.
Qed.

(** [user_id.split(":", 2)[1]] on a user id of the form kind:name:session. *)
Lemma user_id_middle (kind name session : string) :
  str_contains ":" kind = false ->
  str_contains ":" name = false ->
  list_getitem
    (str_split ":" (Some 2%nat) (kind +:+ String ":" (name +:+ String ":" session)))
    1 = Ok name.
Proof.
  intros Hk Hn.
  rewrite (str_split_head ":" (Some 2%nat) kind _ Hk) by discriminate. simpl.
  rewrite (str_split_head ":" (Some 1%nat) name _ Hn) by discriminate.
  reflexivity.
Qed.

Section SSOClaims.
Context `{Externals}.

(** C8: [get_user] raises the plain exception "No accessible roles found"
    exactly when the role enumeration ends without a role.  When it yields
    roles, the first one (account id and role name free of colons) is the one
    assumed, through [get_boto3_session] with region ["eu-west-1"] and login,
    after which get-caller-identity is asked and the middle segment of a user
    id [kind:name:session] is returned. *)
Theorem sso_get_user (self : SSOSessionProvider.t) (w : World) :
  (fst (SSOSessionProvider.get_user self w)
   = Raise (Exception "No accessible roles found")
   <-> list_available_roles (SSOSessionProvider._sso_region self)
         (SSOSessionProvider._start_url self) true = Returns []) /\
  (forall (account_id account_name role_name : string)
          (rest : list (string * string * string)) (session : Session)
          (identity : gmap string string) (kind name sess : string),
     list_available_roles (SSOSessionProvider._sso_region self)
       (SSOSessionProvider._start_url self) true
     = Returns ((account_id, account_name, role_name) :: rest) ->
     str_contains ":" account_id = false ->
     str_contains ":" role_name = false ->
     get_boto3_session (SSOSessionProvider._start_url self)
       (SSOSessionProvider._sso_region self) account_id role_name
       "eu-west-1" true = Returns session ->
     sts_get_caller_identity (session_sts_client session) = Returns identity ->
     identity !! "UserId"
     = Some (kind +:+ String ":" (name +:+ String ":" sess)) ->
     str_contains ":" kind = false ->
     str_contains ":" name = false ->
     SSOSessionProvider.get_user self w
     = (Ok name,
        {| cache := cache w; clock := clock w; stdin := stdin w;
           calls := calls w ++
             [ListAvailableRoles (SSOSessionProvider._sso_region self)
                (SSOSessionProvider._start_url self) true;
              GetBoto3Session (SSOSessionProvider._start_url self)
                (SSOSessionProvider._sso_region self) account_id role_name
                "eu-west-1" true;
              GetCallerIdentity] |})).
Proof.
  split; [split|].
  - unfold SSOSessionProvider.get_user, SSOSessionProvider._get_any_role,
      SSOSessionProvider.assume_role_session.
    unfold_M.
    destruct (list_available_roles _ _ _) as [[|[[a n] r] rest]|d];
      [reflexivity| |discriminate].
    cbn [fst snd].
    destruct (ARN.__init__ _) as [role|x] eqn:Hrole; cbn [fst snd];
      [|intros [= ->]; now apply arn_init_raises in Hrole].
    destruct (ARN.__init__ (ARN.full_arn role)) as [arn|x] eqn:Harn; cbn [fst snd];
      [|intros [= ->]; now apply arn_init_raises in Harn].
    destruct (get_boto3_session _ _ _ _ _ _) as [session|d]; cbn [fst snd];
      [|discriminate].
    destruct (sts_get_caller_identity _) as [identity|d]; cbn [fst snd];
      [|discriminate].
    destruct (identity !! "UserId") as [u|]; cbn [fst snd]; [|discriminate].
    destruct (list_getitem _ 1) as [x|x] eqn:Hx; cbn [fst snd]; [discriminate|].
    intros [= ->]. now apply list_getitem_raises in Hx.
  - intros Hroles.
    unfold SSOSessionProvider.get_user, SSOSessionProvider._get_any_role.
    unfold_M. now rewrite Hroles.
  - intros account_id account_name role_name rest session identity kind name sess
      Hroles Ha Hr Hsession Hid Huid Hk Hn.
    unfold SSOSessionProvider.get_user, SSOSessionProvider._get_any_role,
      SSOSessionProvider.assume_role_session.
    unfold_M. rewrite Hroles, (arn_of_role _ _ Ha Hr).
    cbn [ARN.full_arn]. rewrite (arn_of_role _ _ Ha Hr).
    cbn [ARN.account ARN.resource calls cache clock stdin].
    rewrite Hsession. cbn [calls cache clock stdin].
    rewrite Hid, Huid, (user_id_middle _ _ _ Hk Hn).
    cbn [calls cache clock stdin]. now rewrite <- !app_assoc.
Qed.

End SSOClaims.

(** One role on offer, and an enumeration that ends without any. *)
Lemma sso_get_user_witness :
  SSOSessionProvider.get_user (H := test_externals) test_sso_provider
    (empty_world 0)
  = (Ok "fred",
     {| cache := ∅; clock := 0; stdin := [];
        calls := [ListAvailableRoles "eu-west-1"
                    "https://example.awsapps.com/start" true;
                  GetBoto3Session "https://example.awsapps.com/start"
                    "eu-west-1" "123456789012" "developer" "eu-west-1" true;
                  GetCallerIdentity] |}) /\
  fst (SSOSessionProvider.get_user (H := no_roles_externals) test_sso_provider
         (empty_world 0))
  = Raise (Exception "No accessible roles found").
Proof.
  split.
  - apply (proj2 (sso_get_user (H := test_externals) test_sso_provider
                    (empty_world 0))
             "123456789012" "sandbox" "developer" [] test_sso_session
             (<["UserId" := "AROAEXAMPLEID:fred:test"]> ∅)
             "AROAEXAMPLEID" "fred" "test"); reflexivity.
  - apply (proj1 (sso_get_user (H := no_roles_externals) test_sso_provider
                    (empty_world 0))).
    reflexivity.
Defined.

(** * Further properties of the code *)

(** ** Session cache: boundary, falsy entries, expirations without an instant *)

Section SessionCacheMore.
Context `{Externals}.

Lemma expiration_instant_truthy (entry : pyval) (e : Z) :
  expiration_instant entry = Some e -> truthy entry = true.
Proof.
  unfold expiration_instant.
  destruct (expiration_field entry) as [x|] eqn:Hx; [|discriminate].
  intros _. eapply expiration_field_truthy; eauto.
Qed.

(** A stored entry with an expiration instant is returned exactly when the
    clock has not passed that instant; the instant itself still counts as
    unexpired. *)
Theorem hit_iff_clock_not_past (key : string) (entry : pyval) (e : Z) (w : World) :
  cache w !! key = Some entry ->
  expiration_instant entry = Some e ->
  (SessionCache.get_session_token key w = (Ok entry, w) <-> clock w <= e).
Proof.
  intros Hk He. rewrite (get_session_token_instant _ _ _ _ Hk He).
  pose proof (expiration_instant_truthy _ _ He) as Ht.
  destruct (e <? clock w) eqn:Hlt.
  - apply Z.ltb_lt in Hlt. split; [|lia].
    intros [= <-]. discriminate.
  - apply Z.ltb_ge in Hlt. split; [intros _; exact Hlt | reflexivity].
Qed.

(** A stored entry that is falsy (an empty dict, an empty string, zero,
    [None]) is handed back as it is, without any look at an expiration; the
    factory then takes it for a miss and goes on to a fresh exchange. *)
Theorem falsy_entry_is_returned (key : string) (v : pyval) (w : World)
    (self : CachedMfaSessionFactory.t) (mfa_token : option string) :
  cache w !! key = Some v ->
  truthy v = false ->
  SessionCache.get_session_token key w = (Ok v, w) /\
  (key = CachedMfaSessionFactory.SESSION_KEY ->
   CachedMfaSessionFactory.get_session_token self mfa_token w
   = CachedMfaSessionFactory._create_session self mfa_token w).
Proof.
  intros Hk Ht.
  assert (Hget : SessionCache.get_session_token key w = (Ok v, w)).
  { unfold SessionCache.get_session_token, mbind, M_mbind, M_bind.
    now rewrite (get_cached_session_hit _ _ _ Hk), Ht. }
  split; [exact Hget|].
  intros ->. apply (factory_miss self mfa_token v w); [now rewrite Hget | exact Ht].
Qed.

(** A stored entry whose expiration field is there but denotes no UTC
    instant makes [get_session_token] raise and leaves the world alone:
    [ParserError] for a string the parser rejects, [TypeError] for a naive
    datetime (stored or parsed) and for any other object. *)
Theorem uncomparable_expiration_raises (key : string) (entry x : pyval) (w : World) :
  cache w !! key = Some entry ->
  expiration_field entry = Some x ->
  expiration_instant entry = None ->
  (forall s, x = PyStr s -> parse s = None ->
     SessionCache.get_session_token key w = (Raise ParserError, w)) /\
  ((forall s, x = PyStr s -> parse s <> None) ->
     SessionCache.get_session_token key w = (Raise TypeError, w)).
Proof.
  intros Hk Hx Hi.
  pose proof (expiration_field_truthy _ _ Hx) as Ht.
  destruct (expiration_field_getitem _ _ Hx) as (c & Hc & Hxc).
  unfold expiration_instant in Hi. rewrite Hx in Hi.
  assert (Hrun : forall r,
            SessionCache._is_expired entry w = (Raise r, w) ->
            SessionCache.get_session_token key w = (Raise r, w)).
  { intros r Hr. unfold SessionCache.get_session_token, mbind, M_mbind, M_bind.
    now rewrite (get_cached_session_hit _ _ _ Hk), Ht, Hr. }
  split.
  - intros s -> Hp. apply Hrun.
    unfold SessionCache._is_expired, SessionCache.dateutil_parse. unfold_M.
    now rewrite Hc, Hxc, Hp.
  - intros Hp. apply Hrun.
    unfold SessionCache._is_expired, SessionCache.dateutil_parse. unfold_M.
    rewrite Hc, Hxc.
    destruct x as [| | |s|d| |]; try reflexivity.
    + specialize (Hp s eq_refl).
      destruct (parse s) as [d|]; [|contradiction]. simpl in Hi |- *.
      unfold utc_instant in Hi. unfold datetime_lt.
      now destruct (utcoffset_us d).
    + simpl. unfold utc_instant in Hi. unfold datetime_lt.
      now destruct (utcoffset_us d).
Qed.

End SessionCacheMore.

Lemma hit_iff_clock_not_past_witness :
  SessionCache.get_session_token (H := test_externals) "key" boundary_world
  = (Ok (session_expiring_at (utc_datetime t_expiration)), boundary_world).
Proof.
  apply (hit_iff_clock_not_past (H := test_externals) "key"
           (session_expiring_at (utc_datetime t_expiration)) t_expiration
           boundary_world).
  - vm_compute. reflexivity.
  - vm_compute. reflexivity.
  - vm_compute. discriminate.
Defined.

Lemma falsy_entry_is_returned_witness :
  let w := {| cache := {[ "temporary_session" := PyDict ∅ ]}; clock := 0;
              stdin := []; calls := [] |} in
  SessionCache.get_session_token (H := test_externals) "temporary_session" w
  = (Ok (PyDict ∅), w) /\
  CachedMfaSessionFactory.get_session_token (H := test_externals)
    test_factory (Some "token") w
  = CachedMfaSessionFactory._create_session test_factory (Some "token") w.
Proof.
  intros w.
  destruct (falsy_entry_is_returned (H := test_externals) "temporary_session"
              (PyDict ∅) w test_factory (Some "token")) as [H1 H2].
  - vm_compute. reflexivity.
  - reflexivity.
  - split; [exact H1 | now apply H2].
Defined.

Lemma uncomparable_expiration_raises_witness :
  let w := {| cache := {[ "key" := naive_session ]}; clock := 0;
              stdin := []; calls := [] |} in
  SessionCache.get_session_token (H := test_externals) "key" w
  = (Raise TypeError, w).
Proof.
  intros w.
  apply (uncomparable_expiration_raises (H := test_externals) "key" naive_session
           (PyDatetime {| wall_us := t_expiration; utcoffset_us := None |}) w).
  - vm_compute. reflexivity.
  - vm_compute. reflexivity.
  - vm_compute. reflexivity.
  - intros s Hs. discriminate Hs.
Defined.

(** ** MFA session factory: what reaches the store, and failures *)

Section FactoryMore.
Context `{Externals}.

(** A truthy result of the session cache is the entry the store holds. *)
Lemma session_cache_result_is_stored (key : string) (v : pyval) (w w' : World) :
  SessionCache.get_session_token key w = (Ok v, w') ->
  truthy v = true ->
  cache w !! key = Some v.
Proof.
  unfold SessionCache.get_session_token, mbind, M_mbind, M_bind.
  destruct (cache w !! key) as [sd|] eqn:Hk.
  - rewrite (get_cached_session_hit _ _ _ Hk).
    destruct (truthy sd) eqn:Hsd.
    + destruct (SessionCache._is_expired sd w) as [[[|]|x] w1].
      * intros [= <- <-]. discriminate.
      * now intros [= <- <-].
      * discriminate.
    + intros [= <- <-] Hv. congruence.
  - rewrite (get_cached_session_miss _ _ Hk). simpl.
    intros [= <- <-]. discriminate.
Qed.

Lemma bind_run {A B : Type} (m : M A) (k : A -> M B) (w : World) :
  (m ≫= k) w
  = match m w with
    | (Ok a, w') => k a w'
    | (Raise e, w') => (Raise e, w')
    end.
Proof. reflexivity. Qed.

Lemma keeps_store_bind {A B : Type} (m : M A) (k : A -> M B) :
  keeps_store m -> (forall a, keeps_store (k a)) -> keeps_store (m ≫= k).
Proof.
  intros Hm Hk w. rewrite bind_run. specialize (Hm w).
  destruct (m w) as [[a|e] w1]; simpl in Hm.
  - destruct (Hk a w1) as [Hc Ht]. destruct Hm as [Hc1 Ht1]. split; congruence.
  - exact Hm.
Qed.

Lemma keeps_store_ret {A : Type} (a : A) : keeps_store (mret a).
Proof. now intros w. Qed.

Lemma keeps_store_raise {A : Type} (e : exn) : keeps_store (raise (A := A) e).
Proof. now intros w. Qed.

Lemma keeps_store_lift {A : Type} (r : result A) : keeps_store (lift r).
Proof. now intros w. Qed.

Lemma keeps_store_call_ext {A : Type} (c : call) (answer : ext A) :
  keeps_store (call_ext c answer).
Proof. intros w. unfold call_ext. now destruct answer. Qed.

Lemma keeps_store_input : keeps_store input.
Proof. intros w. unfold input. now destruct (stdin w). Qed.

Lemma keeps_store_get_account_and_user (sts_client : StsClient) :
  keeps_store (_get_account_and_user sts_client).
Proof.
  unfold _get_account_and_user.
  repeat (apply keeps_store_bind; [|intros ?]);
    auto using keeps_store_call_ext, keeps_store_lift, keeps_store_ret.
Qed.

(** [_create_session] writes the store once, with what it returns, and not
    at all when it raises; it never touches the clock. *)
Lemma create_session_store (self : CachedMfaSessionFactory.t)
    (mfa_token : option string) (w : World) :
  match CachedMfaSessionFactory._create_session self mfa_token w with
  | (Ok v, w') =>
      cache w' = <[CachedMfaSessionFactory.SESSION_KEY := v]> (cache w) /\
      clock w' = clock w
  | (Raise _, w') => cache w' = cache w /\ clock w' = clock w
  end.
Proof.
  unfold CachedMfaSessionFactory._create_session. rewrite bind_run.
  assert (Hcode : keeps_store
            (match mfa_token with
             | Some tok => if String.eqb tok "" then input else mret tok
             | None => input
             end)).
  { destruct mfa_token as [tok|]; [destruct (String.eqb tok "")|];
      auto using keeps_store_input, keeps_store_ret. }
  specialize (Hcode w).
  destruct (match mfa_token with
            | Some tok => if String.eqb tok "" then input else mret tok
            | None => input
            end w) as [[code|e] w1]; simpl in Hcode; [|exact Hcode].
  destruct Hcode as [Hc1 Ht1]. rewrite bind_run.
  pose proof (keeps_store_get_account_and_user
                (CachedMfaSessionFactory._sts_client self) w1) as Hau.
  destruct (_get_account_and_user _ w1) as [[[account user]|e] w2];
    simpl in Hau; destruct Hau as [Hc2 Ht2]; [|split; congruence].
  rewrite bind_run.
  pose proof (keeps_store_call_ext
    (GetSessionToken (td_seconds CachedMfaSessionFactory.MFA_SESSION_DURATION)
       ("arn:aws:iam::" +:+ account +:+ ":mfa/" +:+ user) code)
    (sts_get_session_token (CachedMfaSessionFactory._sts_client self)
       (td_seconds CachedMfaSessionFactory.MFA_SESSION_DURATION)
       ("arn:aws:iam::" +:+ account +:+ ":mfa/" +:+ user) code) w2) as Hst.
  destruct (call_ext _ _ w2) as [[resp|e] w3];
    simpl in Hst; destruct Hst as [Hc3 Ht3]; [|split; congruence].
  unfold SessionCache.cache_session, cache_setitem. rewrite bind_run. simpl.
  split; congruence.
Qed.

(** The same on a given store: what is written is the store's form of what
    is returned. *)
Lemma stored_create_session_store {store : CacheStore}
    (self : CachedMfaSessionFactory.t) (mfa_token : option string) (w : World) :
  match StoredMfaSessionFactory._create_session self mfa_token w with
  | (Ok v, w') =>
      cache w' = <[CachedMfaSessionFactory.SESSION_KEY := stored_form v]> (cache w) /\
      clock w' = clock w
  | (Raise _, w') => cache w' = cache w /\ clock w' = clock w
  end.
Proof.
  unfold StoredMfaSessionFactory._create_session. rewrite bind_run.
  assert (Hcode : keeps_store
            (match mfa_token with
             | Some tok => if String.eqb tok "" then input else mret tok
             | None => input
             end)).
  { destruct mfa_token as [tok|]; [destruct (String.eqb tok "")|];
      auto using keeps_store_input, keeps_store_ret. }
  specialize (Hcode w).
  destruct (match mfa_token with
            | Some tok => if String.eqb tok "" then input else mret tok
            | None => input
            end w) as [[code|e] w1]; simpl in Hcode; [|exact Hcode].
  destruct Hcode as [Hc1 Ht1]. rewrite bind_run.
  pose proof (keeps_store_get_account_and_user
                (CachedMfaSessionFactory._sts_client self) w1) as Hau.
  destruct (_get_account_and_user _ w1) as [[[account user]|e] w2];
    simpl in Hau; destruct Hau as [Hc2 Ht2]; [|split; congruence].
  rewrite bind_run.
  pose proof (keeps_store_call_ext
    (GetSessionToken (td_seconds CachedMfaSessionFactory.MFA_SESSION_DURATION)
       ("arn:aws:iam::" +:+ account +:+ ":mfa/" +:+ user) code)
    (sts_get_session_token (CachedMfaSessionFactory._sts_client self)
       (td_seconds CachedMfaSessionFactory.MFA_SESSION_DURATION)
       ("arn:aws:iam::" +:+ account +:+ ":mfa/" +:+ user) code) w2) as Hst.
  destruct (call_ext _ _ w2) as [[resp|e] w3];
    simpl in Hst; destruct Hst as [Hc3 Ht3]; [|split; congruence].
  unfold StoredSessionCache.cache_session, store_setitem, cache_setitem.
  rewrite bind_run. simpl. split; congruence.
Qed.

(** After a call of the factory that returns a value, the store holds under
    the fixed key either that very value, the call having changed nothing (a
    hit), or the store's form of that value, written by the call (a fresh
    exchange).  On a store that keeps the object it therefore holds exactly
    what was returned; on [JSONFileCache] a fresh response is returned as STS
    gave it while the store holds its JSON form. *)
Theorem factory_result_is_cached {store : CacheStore}
    (self : CachedMfaSessionFactory.t)
    (mfa_token : option string) (v : pyval) (w w' : World) :
  StoredMfaSessionFactory.get_session_token self mfa_token w = (Ok v, w') ->
  ((w' = w /\ cache w' !! CachedMfaSessionFactory.SESSION_KEY = Some v) \/
   (cache w' = <[CachedMfaSessionFactory.SESSION_KEY := stored_form v]> (cache w) /\
    cache w' !! CachedMfaSessionFactory.SESSION_KEY = Some (stored_form v))) /\
  (stored_form v = v ->
   cache w' !! CachedMfaSessionFactory.SESSION_KEY = Some v).
Proof.
  unfold StoredMfaSessionFactory.get_session_token. rewrite bind_run.
  pose proof (get_session_token_frame CachedMfaSessionFactory.SESSION_KEY w) as Hw.
  destruct (SessionCache.get_session_token _ w) as [[sd|e] w1] eqn:Hsd;
    simpl in Hw; subst w1; [|discriminate].
  destruct (truthy sd) eqn:Ht.
  - intros [= <- <-].
    pose proof (session_cache_result_is_stored _ _ _ _ Hsd Ht) as Hk.
    split; [left; now split | now intros _].
  - intros Hcs. pose proof (stored_create_session_store self mfa_token w) as Hst.
    rewrite Hcs in Hst. destruct Hst as [Hc _].
    assert (Hk : cache w' !! CachedMfaSessionFactory.SESSION_KEY
                 = Some (stored_form v)).
    { rewrite Hc. apply lookup_insert_eq. }
    split; [right; now split | intros <-; exact Hk].
Qed.

(** A call of the factory that raises leaves the store as it was: nothing is
    cached unless the exchange has answered. *)
Theorem factory_failure_keeps_store (self : CachedMfaSessionFactory.t)
    (mfa_token : option string) (e : exn) (w w' : World) :
  CachedMfaSessionFactory.get_session_token self mfa_token w = (Raise e, w') ->
  cache w' = cache w.
Proof.
  unfold CachedMfaSessionFactory.get_session_token. rewrite bind_run.
  pose proof (get_session_token_frame CachedMfaSessionFactory.SESSION_KEY w) as Hw.
  destruct (SessionCache.get_session_token _ w) as [[sd|x] w1] eqn:Hsd;
    simpl in Hw; subst w1.
  - destruct (truthy sd); [discriminate|].
    intros Hcs. pose proof (create_session_store self mfa_token w) as Hst.
    rewrite Hcs in Hst. exact (proj1 Hst).
  - now intros [= _ <-].
Qed.

End FactoryMore.

Section FactoryFailures.
Context `{Externals}.

(** When get-caller-identity fails on a miss, the failure reaches the caller
    as it is and no session token is asked for: the log gains that one call,
    and the store and the terminal are untouched. *)
Theorem identity_failure_stops_exchange (self : CachedMfaSessionFactory.t)
    (tok d : string) (v : pyval) (w : World) :
  fst (SessionCache.get_session_token CachedMfaSessionFactory.SESSION_KEY w)
  = Ok v ->
  truthy v = false ->
  tok <> "" ->
  sts_get_caller_identity (CachedMfaSessionFactory._sts_client self) = Fails d ->
  CachedMfaSessionFactory.get_session_token self (Some tok) w
  = (Raise (ExchangeFailure d),
     {| cache := cache w; clock := clock w; stdin := stdin w;
        calls := calls w ++ [GetCallerIdentity] |}).
Proof.
  intros Hv Ht Htok Hid. rewrite (factory_miss _ _ _ _ Hv Ht).
  apply String.eqb_neq in Htok.
  unfold CachedMfaSessionFactory._create_session, _get_account_and_user.
  rewrite Htok. unfold_M. now rewrite Hid.
Qed.

(** When the session-token request is refused (a wrong MFA code, say), the
    failure reaches the caller as it is, nothing is cached and nothing more
    is read from the terminal: there is no second prompt. *)
Theorem rejected_code_caches_nothing (self : CachedMfaSessionFactory.t)
    (tok d : string) (v : pyval) (w : World)
    (identity : gmap string string) (account arn user : string) :
  fst (SessionCache.get_session_token CachedMfaSessionFactory.SESSION_KEY w)
  = Ok v ->
  truthy v = false ->
  tok <> "" ->
  sts_get_caller_identity (CachedMfaSessionFactory._sts_client self)
  = Returns identity ->
  identity !! "Account" = Some account ->
  identity !! "Arn" = Some arn ->
  after_last "/" arn user ->
  sts_get_session_token (CachedMfaSessionFactory._sts_client self) 43200
    ("arn:aws:iam::" +:+ account +:+ ":mfa/" +:+ user) tok = Fails d ->
  CachedMfaSessionFactory.get_session_token self (Some tok) w
  = (Raise (ExchangeFailure d),
     {| cache := cache w; clock := clock w; stdin := stdin w;
        calls := calls w ++ [GetCallerIdentity;
                   GetSessionToken 43200
                     ("arn:aws:iam::" +:+ account +:+ ":mfa/" +:+ user) tok] |}).
Proof.
  intros Hv Ht Htok Hid Hacc Harn Huser Hresp.
  rewrite (factory_miss _ _ _ _ Hv Ht). apply String.eqb_neq in Htok.
  unfold CachedMfaSessionFactory._create_session. rewrite Htok.
  rewrite bind_run. cbn [mret M_ret]. rewrite bind_run.
  rewrite (get_account_and_user_ok _ _ _ _ _ _ Hid Hacc Harn Huser).
  change (td_seconds CachedMfaSessionFactory.MFA_SESSION_DURATION) with 43200.
  rewrite bind_run. unfold call_ext. rewrite Hresp.
  cbn [calls cache clock stdin]. now rewrite <- app_assoc.
Qed.

(** An expired entry under the fixed key is replaced: with a code supplied,
    the factory makes the exchange, overwrites the entry with the response and
    returns the response. *)
Theorem expired_entry_is_refreshed (self : CachedMfaSessionFactory.t)
    (tok : string) (old : pyval) (e : Z) (w : World)
    (identity : gmap string string) (account arn user : string) (resp : pyval) :
  cache w !! CachedMfaSessionFactory.SESSION_KEY = Some old ->
  expiration_instant old = Some e ->
  e < clock w ->
  tok <> "" ->
  sts_get_caller_identity (CachedMfaSessionFactory._sts_client self)
  = Returns identity ->
  identity !! "Account" = Some account ->
  identity !! "Arn" = Some arn ->
  after_last "/" arn user ->
  sts_get_session_token (CachedMfaSessionFactory._sts_client self) 43200
    ("arn:aws:iam::" +:+ account +:+ ":mfa/" +:+ user) tok = Returns resp ->
  exists w' : World,
    CachedMfaSessionFactory.get_session_token self (Some tok) w = (Ok resp, w') /\
    cache w' = <["temporary_session" := resp]> (cache w) /\
    cache w' !! "temporary_session" = Some resp /\
    calls w' = calls w ++ [GetCallerIdentity;
                 GetSessionToken 43200
                   ("arn:aws:iam::" +:+ account +:+ ":mfa/" +:+ user) tok].
Proof.
  intros Hk He Hlt Htok Hid Hacc Harn Huser Hresp.
  assert (Hmiss : fst (SessionCache.get_session_token
                         CachedMfaSessionFactory.SESSION_KEY w) = Ok PyNone).
  { rewrite (get_session_token_instant _ _ _ _ Hk He).
    apply Z.ltb_lt in Hlt. now rewrite Hlt. }
  eexists. split; [|split; [|split]].
  - rewrite (factory_miss _ _ _ _ Hmiss eq_refl).
    apply (create_session_ok self (Some tok) tok w w identity account arn user resp);
      try assumption.
    apply String.eqb_neq in Htok. now rewrite Htok.
  - reflexivity.
  - apply lookup_insert_eq.
  - reflexivity.
Qed.


(** With no code and nothing to read at the terminal, the factory raises
    [EOFError] without having called the STS client. *)
Theorem missing_code_without_terminal (self : CachedMfaSessionFactory.t)
    (mfa_token : option string) (v : pyval) (w : World) :
  mfa_token = None \/ mfa_token = Some "" ->
  fst (SessionCache.get_session_token CachedMfaSessionFactory.SESSION_KEY w)
  = Ok v ->
  truthy v = false ->
  stdin w = [] ->
  CachedMfaSessionFactory.get_session_token self mfa_token w = (Raise EOFError, w).
Proof.
  intros Hm Hv Ht Hin. rewrite (factory_miss _ _ _ _ Hv Ht).
  unfold CachedMfaSessionFactory._create_session. rewrite bind_run.
  destruct Hm as [-> | ->]; simpl; unfold input; now rewrite Hin.
Qed.

End FactoryFailures.

Lemma factory_result_is_cached_witness :
  let r := StoredMfaSessionFactory.get_session_token (H := test_externals)
             (store := JSONFileCache test_strftime)
             granting_factory (Some "token") (empty_world 0) in
  fst r = Ok STS_SESSION /\
  cache (snd r) !! "temporary_session" = Some (json_form test_strftime STS_SESSION) /\
  cache (snd (StoredMfaSessionFactory.get_session_token (H := test_externals)
                (store := InMemoryCache)
                granting_factory (Some "token") (empty_world 0)))
    !! "temporary_session" = Some STS_SESSION.
Proof.
  intros r. split; [ vm_compute; reflexivity | ]. split.
  - destruct (factory_result_is_cached (H := test_externals)
                (store := JSONFileCache test_strftime) granting_factory
                (Some "token") STS_SESSION (empty_world 0) (snd r))
      as [[[Hw Hk] | [_ Hk]] _].
    + vm_compute. reflexivity.
    + exfalso. rewrite Hw in Hk. vm_compute in Hk. discriminate Hk.
    + exact Hk.
  - apply (factory_result_is_cached (H := test_externals)
             (store := InMemoryCache) granting_factory
             (Some "token") STS_SESSION (empty_world 0)).
    + vm_compute. reflexivity.
    + reflexivity.
Defined.

Lemma factory_failure_keeps_store_witness :
  cache (snd (CachedMfaSessionFactory.get_session_token (H := test_externals)
                rejecting_factory (Some "000000") (empty_world 0)))
  = ∅.
Proof.
  apply (factory_failure_keeps_store (H := test_externals) rejecting_factory
           (Some "000000") (ExchangeFailure "AccessDenied") (empty_world 0)).
  vm_compute. reflexivity.
Defined.

Lemma identity_failure_stops_exchange_witness :
  CachedMfaSessionFactory.get_session_token (H := test_externals)
    unreachable_factory (Some "000000") (empty_world 0)
  = (Raise (ExchangeFailure "EndpointConnectionError"),
     {| cache := ∅; clock := 0; stdin := []; calls := [GetCallerIdentity] |}).
Proof.
  apply (identity_failure_stops_exchange (H := test_externals)
           unreachable_factory "000000" "EndpointConnectionError" PyNone
           (empty_world 0)).
  - vm_compute. reflexivity.
  - reflexivity.
  - discriminate.
  - reflexivity.
Defined.

Lemma rejected_code_caches_nothing_witness :
  CachedMfaSessionFactory.get_session_token (H := test_externals)
    rejecting_factory (Some "000000") (empty_world 0)
  = (Raise (ExchangeFailure "AccessDenied"),
     {| cache := ∅; clock := 0; stdin := [];
        calls := [GetCallerIdentity;
                  GetSessionToken 43200 "arn:aws:iam::123456789012:mfa/fred"
                    "000000"] |}).
Proof.
  apply (rejected_code_caches_nothing (H := test_externals) rejecting_factory
           "000000" "AccessDenied" PyNone (empty_world 0)
           (<["Arn" := "arn:aws:iam::123456789012:user/ops/fred"]>
              (<["Account" := "123456789012"]> ∅))
           "123456789012" "arn:aws:iam::123456789012:user/ops/fred" "fred").
  - vm_compute. reflexivity.
  - reflexivity.
  - discriminate.
  - reflexivity.
  - vm_compute. reflexivity.
  - vm_compute. reflexivity.
  - split; [ reflexivity | right ].
    now exists "arn:aws:iam::123456789012:user/ops".
  - reflexivity.
Defined.

Lemma expired_entry_is_refreshed_witness :
  t_expiration < clock (warm_world (t_expiration + 1)) /\
  exists w' : World,
    CachedMfaSessionFactory.get_session_token (H := test_externals)
      test_factory (Some "token") (warm_world (t_expiration + 1))
    = (Ok SESSION_DATA, w') /\
    cache w' = <["temporary_session" := SESSION_DATA]>
                 (cache (warm_world (t_expiration + 1))) /\
    cache w' !! "temporary_session" = Some SESSION_DATA /\
    calls w' = calls (warm_world (t_expiration + 1)) ++
                 [GetCallerIdentity;
                  GetSessionToken 43200
                    ("arn:aws:iam::" +:+ "123456789012" +:+ ":mfa/" +:+ "arn")
                    "token"].
Proof.
  split; [ vm_compute; reflexivity | ].
  apply (expired_entry_is_refreshed (H := test_externals) test_factory "token"
           SESSION_DATA t_expiration (warm_world (t_expiration + 1))
           (<["Arn" := "arn"]> (<["Account" := "123456789012"]> ∅))
           "123456789012" "arn" "arn" SESSION_DATA).
  - vm_compute. reflexivity.
  - vm_compute. reflexivity.
  - vm_compute. reflexivity.
  - discriminate.
  - reflexivity.
  - vm_compute. reflexivity.
  - vm_compute. reflexivity.
  - split; [ reflexivity | now left ].
  - reflexivity.
Defined.


Lemma missing_code_without_terminal_witness :
  CachedMfaSessionFactory.get_session_token (H := test_externals)
    test_factory None (empty_world 0)
  = (Raise EOFError, empty_world 0).
Proof.
  apply (missing_code_without_terminal (H := test_externals) test_factory
           None PyNone (empty_world 0)).
  - now left.
  - vm_compute. reflexivity.
  - reflexivity.
  - reflexivity.
Defined.

(** ** The caller's account and user name *)

(** A string that contains the separator splits at its last occurrence. *)
Lemma str_contains_last (sep : ascii) (s : string) :
  str_contains sep s = true ->
  exists a b, s = a +:+ String sep b /\ str_contains sep b = false.
Proof.
  induction s as [|c s IH]; simpl; [discriminate|].
  destruct (str_contains sep s) eqn:Hs.
  - intros _. destruct (IH eq_refl) as (a & b & -> & Hb).
    now exists (String c a), b.
  - rewrite orb_false_r. intros Hc. apply Ascii.eqb_eq in Hc. subst c.
    now exists "", s.
Qed.

Lemma after_last_exists (sep : ascii) (s : string) :
  exists part, after_last sep s part.
Proof.
  destruct (str_contains sep s) eqn:Hs.
  - destruct (str_contains_last _ _ Hs) as (a & b & -> & Hb).
    exists b. split; [exact Hb | right; now exists a].
  - exists s. split; [exact Hs | now left].
Qed.

(** For every identity that carries [Arn] and [Account],
    [_get_account_and_user] succeeds after one get-caller-identity call, and
    the user name it returns is the end of the ARN after its last [/] (the
    whole ARN when it has none): it never holds a [/]. *)
Theorem caller_user_is_last_path_component (sts_client : StsClient)
    (identity : gmap string string) (account arn : string) (w : World) :
  sts_get_caller_identity sts_client = Returns identity ->
  identity !! "Account" = Some account ->
  identity !! "Arn" = Some arn ->
  exists user : string,
    after_last "/" arn user /\
    _get_account_and_user sts_client w
    = (Ok (account, user),
       {| cache := cache w; clock := clock w; stdin := stdin w;
          calls := calls w ++ [GetCallerIdentity] |}).
Proof.
  intros Hid Hacc Harn. destruct (after_last_exists "/" arn) as [user Huser].
  exists user. split; [exact Huser|].
  now apply (get_account_and_user_ok sts_client identity account arn user w).
Qed.

(** An identity without [Arn] raises [KeyError] for [Arn], whether or not it
    has [Account]; one with [Arn] and without [Account] raises [KeyError] for
    [Account].  Either way the call to the client has been made. *)
Theorem identity_without_field_raises (sts_client : StsClient)
    (identity : gmap string string) (w : World) :
  sts_get_caller_identity sts_client = Returns identity ->
  (identity !! "Arn" = None ->
   _get_account_and_user sts_client w
   = (Raise (KeyError "Arn"),
      {| cache := cache w; clock := clock w; stdin := stdin w;
         calls := calls w ++ [GetCallerIdentity] |})) /\
  (forall arn : string,
     identity !! "Arn" = Some arn ->
     identity !! "Account" = None ->
     _get_account_and_user sts_client w
     = (Raise (KeyError "Account"),
        {| cache := cache w; clock := clock w; stdin := stdin w;
           calls := calls w ++ [GetCallerIdentity] |})).
Proof.
  intros Hid. split.
  - intros Harn. unfold _get_account_and_user. unfold_M. now rewrite Hid, Harn.
  - intros arn Harn Hacc. unfold _get_account_and_user. unfold_M.
    now rewrite Hid, Harn, Hacc.
Qed.

Lemma caller_user_is_last_path_component_witness :
  exists user : string,
    after_last "/" "arn:aws:iam::123456789012:user/ops/fred" user /\
    _get_account_and_user rejecting_sts_client (empty_world 0)
    = (Ok ("123456789012", user),
       {| cache := ∅; clock := 0; stdin := []; calls := [GetCallerIdentity] |}).
Proof.
  apply (caller_user_is_last_path_component rejecting_sts_client
           (<["Arn" := "arn:aws:iam::123456789012:user/ops/fred"]>
              (<["Account" := "123456789012"]> ∅))
           "123456789012" "arn:aws:iam::123456789012:user/ops/fred"
           (empty_world 0)).
  - reflexivity.
  - vm_compute. reflexivity.
  - vm_compute. reflexivity.
Defined.

Lemma identity_without_field_raises_witness :
  _get_account_and_user
    {| sts_get_caller_identity := Returns (<["Account" := "123456789012"]> ∅);
       sts_get_session_token := fun _ _ _ => Fails "AccessDenied" |}
    (empty_world 0)
  = (Raise (KeyError "Arn"),
     {| cache := ∅; clock := 0; stdin := []; calls := [GetCallerIdentity] |}) /\
  _get_account_and_user
    {| sts_get_caller_identity := Returns (<["Arn" := "arn"]> ∅);
       sts_get_session_token := fun _ _ _ => Fails "AccessDenied" |}
    (empty_world 0)
  = (Raise (KeyError "Account"),
     {| cache := ∅; clock := 0; stdin := []; calls := [GetCallerIdentity] |}).
Proof.
  split.
  - apply (proj1 (identity_without_field_raises
                    {| sts_get_caller_identity :=
                         Returns (<["Account" := "123456789012"]> ∅);
                       sts_get_session_token := fun _ _ _ => Fails "AccessDenied" |}
                    (<["Account" := "123456789012"]> ∅) (empty_world 0) eq_refl)).
    vm_compute. reflexivity.
  - apply (proj2 (identity_without_field_raises
                    {| sts_get_caller_identity := Returns (<["Arn" := "arn"]> ∅);
                       sts_get_session_token := fun _ _ _ => Fails "AccessDenied" |}
                    (<["Arn" := "arn"]> ∅) (empty_world 0) eq_refl) "arn").
    + vm_compute. reflexivity.
    + vm_compute. reflexivity.
Defined.

(** ** ARN parser: too few and too many segments *)

Lemma get_resource_not_seven (e0 e1 e2 e3 e4 e5 : string) (rest : list string) :
  length rest <> 1%nat ->
  ARN._get_resource (e0 :: e1 :: e2 :: e3 :: e4 :: e5 :: rest)
  = ARN._get_resource [e0; e1; e2; e3; e4; e5].
Proof.
  intros Hr. unfold ARN._get_resource.
  assert (Hn : Nat.eqb (length (e0 :: e1 :: e2 :: e3 :: e4 :: e5 :: rest)) 7 = false).
  { apply Nat.eqb_neq. simpl. lia. }
  now rewrite Hn.
Qed.

Lemma get_resource_six (e0 e1 e2 e3 e4 e5 : string) :
  exists r, ARN._get_resource [e0; e1; e2; e3; e4; e5] = Ok r.
Proof.
  destruct (str_contains "/" e5) eqn:H5.
  - destruct (str_contains_first _ _ H5) as (ty & res & -> & Hty).
    eexists. now apply get_resource_six_slash.
  - eexists. now apply get_resource_six_plain.
Qed.

Lemma arn_init_segments (s : string) (e0 e1 e2 e3 e4 e5 : string)
    (rest : list string) (rt : option string) (r : string) :
  str_split ":" None s = e0 :: e1 :: e2 :: e3 :: e4 :: e5 :: rest ->
  ARN._get_resource (e0 :: e1 :: e2 :: e3 :: e4 :: e5 :: rest) = Ok (rt, r) ->
  ARN.__init__ s = Ok (ARN.mk s e0 e1 e2 e3 e4 rt r).
Proof.
  intros Hs Hr. unfold ARN.__init__. rewrite Hs.
  cbn [list_getitem lookup list_lookup mbind result_mbind result_bind].
  now rewrite Hr.
Qed.

(** [ARN(s)] succeeds exactly when [s] has at least six segments between
    colons (five colons or more), and raises [IndexError] exactly when it has
    fewer. *)
Theorem arn_ok_iff_six_segments (s : string) :
  ((exists a, ARN.__init__ s = Ok a)
   <-> (6 <= length (str_split ":" None s))%nat) /\
  (ARN.__init__ s = Raise IndexError
   <-> (length (str_split ":" None s) < 6)%nat).
Proof.
  assert (Hlong : (6 <= length (str_split ":" None s))%nat ->
                  exists a, ARN.__init__ s = Ok a).
  { intros Hlen.
    destruct (str_split ":" None s) as [|e0 [|e1 [|e2 [|e3 [|e4 [|e5 rest]]]]]] eqn:Hs;
      simpl in Hlen; try lia.
    destruct (ARN._get_resource (e0 :: e1 :: e2 :: e3 :: e4 :: e5 :: rest))
      as [[rt r]|x] eqn:Hr.
    - eexists. exact (arn_init_segments _ _ _ _ _ _ _ _ _ _ Hs Hr).
    - exfalso. destruct (Nat.eq_dec (length rest) 1%nat) as [H1|H1].
      + destruct rest as [|e6 [|]]; discriminate.
      + rewrite (get_resource_not_seven _ _ _ _ _ _ _ H1) in Hr.
        destruct (get_resource_six e0 e1 e2 e3 e4 e5) as [r' Hr'].
        congruence. }
  assert (Hshort : (length (str_split ":" None s) < 6)%nat ->
                   ARN.__init__ s = Raise IndexError).
  { intros Hlen. unfold ARN.__init__.
    destruct (str_split ":" None s) as [|e0 [|e1 [|e2 [|e3 [|e4 [|e5 rest]]]]]];
      simpl in Hlen; try lia; reflexivity. }
  split; split.
  - intros [a Ha].
    destruct (le_lt_dec 6%nat (length (str_split ":" None s))) as [Hl|Hl]; [exact Hl|].
    rewrite (Hshort Hl) in Ha. discriminate.
  - exact Hlong.
  - intros Hr.
    destruct (le_lt_dec 6%nat (length (str_split ":" None s))) as [Hl|Hl]; [|exact Hl].
    destruct (Hlong Hl) as [a Ha]. congruence.
  - exact Hshort.
Qed.

(** With eight segments or more, the segments after the sixth are dropped:
    resource type and resource come from segment 5 alone, cut at its first
    [/] when it has one. *)
Theorem arn_extra_segments_ignored (s : string) (e0 e1 e2 e3 e4 e5 : string)
    (rest : list string) :
  str_split ":" None s = e0 :: e1 :: e2 :: e3 :: e4 :: e5 :: rest ->
  (2 <= length rest)%nat ->
  (str_contains "/" e5 = false ->
   ARN.__init__ s = Ok (ARN.mk s e0 e1 e2 e3 e4 None e5)) /\
  (forall ty res : string,
     e5 = ty +:+ String "/" res ->
     str_contains "/" ty = false ->
     ARN.__init__ s = Ok (ARN.mk s e0 e1 e2 e3 e4 (Some ty) res)).
Proof.
  intros Hs Hlen.
  assert (H1 : length rest <> 1%nat) by lia.
  split.
  - intros H5. apply (arn_init_segments _ _ _ _ _ _ _ _ _ _ Hs).
    rewrite (get_resource_not_seven _ _ _ _ _ _ _ H1).
    now apply get_resource_six_plain.
  - intros ty res -> Hty. apply (arn_init_segments _ _ _ _ _ _ _ _ _ _ Hs).
    rewrite (get_resource_not_seven _ _ _ _ _ _ _ H1).
    now apply get_resource_six_slash.
Qed.

Lemma arn_ok_iff_six_segments_witness :
  ARN.__init__ "arn:aws:iam::123456789012" = Raise IndexError /\
  exists a, ARN.__init__ "arn:aws:iam::123456789012:role/administrator" = Ok a.
Proof.
  split.
  - apply (proj2 (arn_ok_iff_six_segments "arn:aws:iam::123456789012")).
    vm_compute. lia.
  - apply (proj1 (arn_ok_iff_six_segments
                    "arn:aws:iam::123456789012:role/administrator")).
    vm_compute. lia.
Defined.

Lemma arn_extra_segments_ignored_witness :
  ARN.__init__ "arn:aws:logs:eu-west-1:123456789012:log-group:/aws/x:log-stream:y"
  = Ok (ARN.mk
          "arn:aws:logs:eu-west-1:123456789012:log-group:/aws/x:log-stream:y"
          "arn" "aws" "logs" "eu-west-1" "123456789012" None "log-group").
Proof.
  apply (proj1 (arn_extra_segments_ignored
                  "arn:aws:logs:eu-west-1:123456789012:log-group:/aws/x:log-stream:y"
                  "arn" "aws" "logs" "eu-west-1" "123456789012" "log-group"
                  ["/aws/x"; "log-stream"; "y"] eq_refl
                  (le_S _ _ (le_n 2%nat)))).
  reflexivity.
Defined.

Lemma get_resource_fields (e0 e1 e2 e3 e4 e5 : string) (rest : list string)
    (rt : option string) (r : string) :
  Forall (fun p => str_contains ":" p = false) (e5 :: rest) ->
  ARN._get_resource (e0 :: e1 :: e2 :: e3 :: e4 :: e5 :: rest) = Ok (rt, r) ->
  str_contains ":" r = false /\
  (forall ty, rt = Some ty -> str_contains ":" ty = false) /\
  (rt = None -> str_contains "/" r = false).
Proof.
  intros Hparts. inversion Hparts as [|? ? H5 Hrest]; subst.
  destruct (Nat.eq_dec (length rest) 1%nat) as [H1|H1].
  - destruct rest as [|e6 [|]]; try discriminate.
    inversion Hrest as [|? ? H6 _]; subst.
    rewrite get_resource_seven. intros [= <- <-].
    split; [exact H6|]. split; [now intros ty [= <-] | discriminate].
  - rewrite (get_resource_not_seven _ _ _ _ _ _ _ H1).
    destruct (str_contains "/" e5) eqn:Hs.
    + destruct (str_contains_first _ _ Hs) as (ty & res & -> & Hty).
      rewrite (get_resource_six_slash _ _ _ _ _ _ _ Hty). intros [= <- <-].
      rewrite str_contains_app in H5. apply orb_false_iff in H5 as [Hc1 Hc2].
      simpl in Hc2. split; [exact Hc2|].
      split; [now intros ty' [= <-] | discriminate].
    + rewrite (get_resource_six_plain _ _ _ _ _ _ Hs). intros [= <- <-].
      split; [exact H5|]. split; [discriminate | now intros _].
Qed.

(** A parsed ARN keeps the input as [full_arn], and none of its fields
    [arn], [partition], [service], [region], [account], [resource_type] and
    [resource] holds a colon; a resource without a type holds no [/]
    either. *)
Theorem arn_fields_hold_no_colon (s : string) (a : ARN.t) :
  ARN.__init__ s = Ok a ->
  ARN.full_arn a = s /\
  str_contains ":" (ARN.arn a) = false /\
  str_contains ":" (ARN.partition a) = false /\
  str_contains ":" (ARN.service a) = false /\
  str_contains ":" (ARN.region a) = false /\
  str_contains ":" (ARN.account a) = false /\
  str_contains ":" (ARN.resource a) = false /\
  (forall ty, ARN.resource_type a = Some ty -> str_contains ":" ty = false) /\
  (ARN.resource_type a = None -> str_contains "/" (ARN.resource a) = false).
Proof.
  intros Ha. pose proof (str_split_parts ":" s) as Hparts.
  destruct (str_split ":" None s) as [|e0 [|e1 [|e2 [|e3 [|e4 [|e5 rest]]]]]] eqn:Hs;
    try (unfold ARN.__init__ in Ha; rewrite Hs in Ha; discriminate).
  inversion Hparts as [|? ? H0 Hp1]; subst.
  inversion Hp1 as [|? ? H1 Hp2]; subst.
  inversion Hp2 as [|? ? H2 Hp3]; subst.
  inversion Hp3 as [|? ? H3 Hp4]; subst.
  inversion Hp4 as [|? ? H4 Hp5]; subst.
  destruct (ARN._get_resource (e0 :: e1 :: e2 :: e3 :: e4 :: e5 :: rest))
    as [[rt r]|x] eqn:Hr.
  - rewrite (arn_init_segments _ _ _ _ _ _ _ _ _ _ Hs Hr) in Ha.
    injection Ha as <-. simpl.
    destruct (get_resource_fields _ _ _ _ _ _ _ _ _ Hp5 Hr) as (Hr1 & Hr2 & Hr3).
    repeat split; assumption.
  - unfold ARN.__init__ in Ha. rewrite Hs in Ha.
    cbn [list_getitem lookup list_lookup mbind result_mbind result_bind] in Ha.
    rewrite Hr in Ha. discriminate.
Qed.

Lemma arn_fields_hold_no_colon_witness :
  ARN.full_arn
    (ARN.mk "arn:aws:iam::123456789012:role/common-roles/developer"
       "arn" "aws" "iam" "" "123456789012" (Some "role") "common-roles/developer")
  = "arn:aws:iam::123456789012:role/common-roles/developer" /\
  str_contains ":" "common-roles/developer" = false.
Proof.
  destruct (arn_fields_hold_no_colon
              "arn:aws:iam::123456789012:role/common-roles/developer"
              (ARN.mk "arn:aws:iam::123456789012:role/common-roles/developer"
                 "arn" "aws" "iam" "" "123456789012" (Some "role")
                 "common-roles/developer") eq_refl)
    as (Hf & _ & _ & _ & _ & _ & Hr & _).
  split; [exact Hf | exact Hr].
Defined.

(** ** SSO session provider: role assumption and failures *)

Lemma arn_init_short (s : string) :
  (length (str_split ":" None s) < 6)%nat -> ARN.__init__ s = Raise IndexError.
Proof.
  intros Hlen. unfold ARN.__init__.
  destruct (str_split ":" None s) as [|e0 [|e1 [|e2 [|e3 [|e4 [|e5 rest]]]]]];
    simpl in Hlen; try lia; reflexivity.
Qed.

(** The ARN built for a role whose name holds one colon has seven segments:
    the text after the colon becomes the resource. *)
Lemma arn_of_role_with_colon (account_id a b : string) :
  str_contains ":" account_id = false ->
  str_contains ":" a = false ->
  str_contains ":" b = false ->
  ARN.__init__ ("arn:aws:iam::" +:+ account_id +:+ ":role/" +:+ a +:+ String ":" b)
  = Ok (ARN.mk
          ("arn:aws:iam::" +:+ account_id +:+ ":role/" +:+ a +:+ String ":" b)
          "arn" "aws" "iam" "" account_id (Some ("role/" +:+ a)) b).
Proof.
  intros Hacc Ha Hb.
  assert (Hsplit :
    str_split ":" None
      ("arn:aws:iam::" +:+ account_id +:+ ":role/" +:+ a +:+ String ":" b)
    = ["arn"; "aws"; "iam"; ""; account_id; "role/" +:+ a; b]).
  { change ("arn:aws:iam::" +:+ account_id +:+ ":role/" +:+ a +:+ String ":" b)
      with ("arn" +:+ String ":" ("aws" +:+ String ":" ("iam" +:+ String ":"
              ("" +:+ String ":"
                 (account_id +:+ String ":"
                    (("role/" +:+ a) +:+ String ":" b)))))).
    rewrite !str_split_head by (assumption || reflexivity || discriminate).
    cbn [fmap option_fmap option_map].
    now rewrite (str_split_no_sep _ _ _ Hb). }
  apply (arn_init_segments _ _ _ _ _ _ _ _ _ _ Hsplit). reflexivity.
Qed.

Section SSOMore.
Context `{Externals}.

(** A role ARN with fewer than six segments makes [assume_role_session] and
    [assume_role_credentials] raise [IndexError] before any login is
    attempted: the world, call log included, is unchanged. *)
Theorem sso_malformed_arn_makes_no_login (self : SSOSessionProvider.t)
    (role_arn region_name session_name : string) (w : World) :
  (length (str_split ":" None role_arn) < 6)%nat ->
  SSOSessionProvider.assume_role_session self role_arn region_name session_name w
  = (Raise IndexError, w) /\
  SSOSessionProvider.assume_role_credentials self role_arn region_name
    session_name w
  = (Raise IndexError, w).
Proof.
  intros Hlen.
  assert (Hs : SSOSessionProvider.assume_role_session self role_arn region_name
                 session_name w = (Raise IndexError, w)).
  { unfold SSOSessionProvider.assume_role_session. rewrite bind_run.
    unfold lift. now rewrite (arn_init_short _ Hlen). }
  split; [exact Hs|].
  unfold SSOSessionProvider.assume_role_credentials. rewrite bind_run.
  now rewrite Hs.
Qed.

(** For the role ARN [arn:aws:iam::ACCOUNT:role/NAME], the SSO provider logs
    in once, for account [ACCOUNT] and role name [NAME] (slashes of a path in
    [NAME] kept), in the region asked for and whatever the session name.
    [assume_role_session] returns the session that login gives and
    [assume_role_credentials] its access key, secret key and token; a failed
    login is raised as it is by both. *)
Theorem sso_assume_role_logs_in_for_role (self : SSOSessionProvider.t)
    (account_id role_name region_name session_name : string) (w : World) :
  str_contains ":" account_id = false ->
  str_contains ":" role_name = false ->
  let role_arn := "arn:aws:iam::" +:+ account_id +:+ ":role/" +:+ role_name in
  let w' := {| cache := cache w; clock := clock w; stdin := stdin w;
               calls := calls w ++
                 [GetBoto3Session (SSOSessionProvider._start_url self)
                    (SSOSessionProvider._sso_region self) account_id role_name
                    region_name true] |} in
  match get_boto3_session (SSOSessionProvider._start_url self)
          (SSOSessionProvider._sso_region self) account_id role_name
          region_name true with
  | Returns session =>
      SSOSessionProvider.assume_role_session self role_arn region_name
        session_name w = (Ok session, w') /\
      SSOSessionProvider.assume_role_credentials self role_arn region_name
        session_name w
      = (Ok (<["AccessKeyId" := session_access_key session]>
               (<["SecretAccessKey" := session_secret_key session]>
                  (<["SessionToken" := session_token session]> ∅))), w')
  | Fails d =>
      SSOSessionProvider.assume_role_session self role_arn region_name
        session_name w = (Raise (ExchangeFailure d), w') /\
      SSOSessionProvider.assume_role_credentials self role_arn region_name
        session_name w = (Raise (ExchangeFailure d), w')
  end.
Proof.
  intros Ha Hr role_arn w'.
  assert (Hs : SSOSessionProvider.assume_role_session self role_arn region_name
                 session_name w
               = call_ext
                   (GetBoto3Session (SSOSessionProvider._start_url self)
                      (SSOSessionProvider._sso_region self) account_id role_name
                      region_name true)
                   (get_boto3_session (SSOSessionProvider._start_url self)
                      (SSOSessionProvider._sso_region self) account_id role_name
                      region_name true) w).
  { unfold SSOSessionProvider.assume_role_session. rewrite bind_run.
    unfold lift, role_arn. now rewrite (arn_of_role _ _ Ha Hr). }
  unfold SSOSessionProvider.assume_role_credentials. rewrite bind_run, Hs.
  unfold call_ext. fold w'.
  destruct (get_boto3_session _ _ _ _ _ _) as [session|d]; now split.
Qed.

(** What [get_user] raises once a first role is there: a failed login, a
    failed get-caller-identity, an identity without [UserId] ([KeyError]) and
    a user id without a colon ([IndexError]) each end the call, with the log
    showing how far it went.  A failed enumeration ends it after its one
    call. *)
Theorem sso_get_user_failures (self : SSOSessionProvider.t) (w : World)
    (account_id account_name role_name : string)
    (rest : list (string * string * string)) :
  str_contains ":" account_id = false ->
  str_contains ":" role_name = false ->
  let enumerate := ListAvailableRoles (SSOSessionProvider._sso_region self)
                     (SSOSessionProvider._start_url self) true in
  let login := GetBoto3Session (SSOSessionProvider._start_url self)
                 (SSOSessionProvider._sso_region self) account_id role_name
                 "eu-west-1" true in
  let after (l : list call) :=
    {| cache := cache w; clock := clock w; stdin := stdin w;
       calls := calls w ++ l |} in
  (forall d,
     list_available_roles (SSOSessionProvider._sso_region self)
       (SSOSessionProvider._start_url self) true = Fails d ->
     SSOSessionProvider.get_user self w
     = (Raise (ExchangeFailure d), after [enumerate])) /\
  (list_available_roles (SSOSessionProvider._sso_region self)
     (SSOSessionProvider._start_url self) true
   = Returns ((account_id, account_name, role_name) :: rest) ->
   match get_boto3_session (SSOSessionProvider._start_url self)
           (SSOSessionProvider._sso_region self) account_id role_name
           "eu-west-1" true with
   | Fails d =>
       SSOSessionProvider.get_user self w
       = (Raise (ExchangeFailure d), after [enumerate; login])
   | Returns session =>
       match sts_get_caller_identity (session_sts_client session) with
       | Fails d =>
           SSOSessionProvider.get_user self w
           = (Raise (ExchangeFailure d),
              after [enumerate; login; GetCallerIdentity])
       | Returns caller =>
           match caller !! "UserId" with
           | None =>
               SSOSessionProvider.get_user self w
               = (Raise (KeyError "UserId"),
                  after [enumerate; login; GetCallerIdentity])
           | Some user_id =>
               str_contains ":" user_id = false ->
               SSOSessionProvider.get_user self w
               = (Raise IndexError, after [enumerate; login; GetCallerIdentity])
           end
       end
   end).
Proof.
  intros Ha Hr enumerate login after. split.
  - intros d Hroles.
    unfold SSOSessionProvider.get_user, SSOSessionProvider._get_any_role.
    unfold_M. now rewrite Hroles.
  - intros Hroles.
    unfold SSOSessionProvider.get_user, SSOSessionProvider._get_any_role,
      SSOSessionProvider.assume_role_session.
    unfold_M. rewrite Hroles, (arn_of_role _ _ Ha Hr).
    cbn [ARN.full_arn]. rewrite (arn_of_role _ _ Ha Hr).
    cbn [ARN.account ARN.resource calls cache clock stdin].
    unfold after, enumerate, login.
    destruct (get_boto3_session _ _ _ _ _ _) as [session|d];
      cbn [calls cache clock stdin]; [|now rewrite <- !app_assoc].
    destruct (sts_get_caller_identity _) as [identity|d];
      cbn [calls cache clock stdin]; [|now rewrite <- !app_assoc].
    destruct (identity !! "UserId") as [user_id|];
      [|now rewrite <- !app_assoc].
    intros Hu. rewrite (str_split_no_sep _ _ _ Hu).
    cbn. now rewrite <- !app_assoc.
Qed.

(** [get_user] rebuilds an ARN from the first role and parses it again, so a
    colon in the role name shifts the segments: for a name [a:b] the login is
    made for the role name [b]. *)
Theorem sso_get_user_role_name_with_colon (self : SSOSessionProvider.t)
    (w : World) (account_id account_name a b : string)
    (rest : list (string * string * string)) (session : Session)
    (identity : gmap string string) (kind name sess : string) :
  list_available_roles (SSOSessionProvider._sso_region self)
    (SSOSessionProvider._start_url self) true
  = Returns ((account_id, account_name, a +:+ String ":" b) :: rest) ->
  str_contains ":" account_id = false ->
  str_contains ":" a = false ->
  str_contains ":" b = false ->
  get_boto3_session (SSOSessionProvider._start_url self)
    (SSOSessionProvider._sso_region self) account_id b "eu-west-1" true
  = Returns session ->
  sts_get_caller_identity (session_sts_client session) = Returns identity ->
  identity !! "UserId" = Some (kind +:+ String ":" (name +:+ String ":" sess)) ->
  str_contains ":" kind = false ->
  str_contains ":" name = false ->
  SSOSessionProvider.get_user self w
  = (Ok name,
     {| cache := cache w; clock := clock w; stdin := stdin w;
        calls := calls w ++
          [ListAvailableRoles (SSOSessionProvider._sso_region self)
             (SSOSessionProvider._start_url self) true;
           GetBoto3Session (SSOSessionProvider._start_url self)
             (SSOSessionProvider._sso_region self) account_id b
             "eu-west-1" true;
           GetCallerIdentity] |}).
Proof.
  intros Hroles Hacc Ha Hb Hsession Hid Huid Hk Hn.
  unfold SSOSessionProvider.get_user, SSOSessionProvider._get_any_role,
    SSOSessionProvider.assume_role_session.
  unfold_M. rewrite Hroles, (arn_of_role_with_colon _ _ _ Hacc Ha Hb).
  cbn [ARN.full_arn]. rewrite (arn_of_role_with_colon _ _ _ Hacc Ha Hb).
  cbn [ARN.account ARN.resource calls cache clock stdin].
  rewrite Hsession. cbn [calls cache clock stdin].
  rewrite Hid, Huid, (user_id_middle _ _ _ Hk Hn).
  cbn [calls cache clock stdin]. now rewrite <- !app_assoc.
Qed.

End SSOMore.

Lemma sso_malformed_arn_makes_no_login_witness :
  SSOSessionProvider.assume_role_session (H := test_externals)
    test_sso_provider "developer" "eu-west-1" "test" (empty_world 0)
  = (Raise IndexError, empty_world 0) /\
  SSOSessionProvider.assume_role_credentials (H := test_externals)
    test_sso_provider "developer" "eu-west-1" "test" (empty_world 0)
  = (Raise IndexError, empty_world 0).
Proof.
  apply (sso_malformed_arn_makes_no_login (H := test_externals)
           test_sso_provider "developer" "eu-west-1" "test" (empty_world 0)).
  vm_compute. lia.
Defined.

Lemma sso_assume_role_logs_in_for_role_witness :
  SSOSessionProvider.assume_role_session (H := test_externals)
    test_sso_provider "arn:aws:iam::123456789012:role/common-roles/developer"
    "us-east-1" "test" (empty_world 0)
  = (Ok test_sso_session,
     {| cache := ∅; clock := 0; stdin := [];
        calls := [GetBoto3Session "https://example.awsapps.com/start"
                    "eu-west-1" "123456789012" "common-roles/developer"
                    "us-east-1" true] |}) /\
  SSOSessionProvider.assume_role_credentials (H := refused_login_externals)
    test_sso_provider "arn:aws:iam::123456789012:role/common-roles/developer"
    "us-east-1" "test" (empty_world 0)
  = (Raise (ExchangeFailure "UnauthorizedException"),
     {| cache := ∅; clock := 0; stdin := [];
        calls := [GetBoto3Session "https://example.awsapps.com/start"
                    "eu-west-1" "123456789012" "common-roles/developer"
                    "us-east-1" true] |}).
Proof.
  split.
  - exact (proj1 (sso_assume_role_logs_in_for_role (H := test_externals)
                    test_sso_provider "123456789012" "common-roles/developer"
                    "us-east-1" "test" (empty_world 0) eq_refl eq_refl)).
  - exact (proj2 (sso_assume_role_logs_in_for_role (H := refused_login_externals)
                    test_sso_provider "123456789012" "common-roles/developer"
                    "us-east-1" "test" (empty_world 0) eq_refl eq_refl)).
Defined.

Lemma sso_get_user_failures_witness :
  SSOSessionProvider.get_user (H := refused_login_externals) test_sso_provider
    (empty_world 0)
  = (Raise (ExchangeFailure "UnauthorizedException"),
     {| cache := ∅; clock := 0; stdin := [];
        calls := [ListAvailableRoles "eu-west-1"
                    "https://example.awsapps.com/start" true;
                  GetBoto3Session "https://example.awsapps.com/start"
                    "eu-west-1" "123456789012" "developer" "eu-west-1" true] |}).
Proof.
  exact (proj2 (sso_get_user_failures (H := refused_login_externals)
                  test_sso_provider (empty_world 0)
                  "123456789012" "sandbox" "developer" [] eq_refl eq_refl)
           eq_refl).
Defined.

Lemma sso_get_user_role_name_with_colon_witness :
  SSOSessionProvider.get_user (H := colon_role_externals) test_sso_provider
    (empty_world 0)
  = (Ok "fred",
     {| cache := ∅; clock := 0; stdin := [];
        calls := [ListAvailableRoles "eu-west-1"
                    "https://example.awsapps.com/start" true;
                  GetBoto3Session "https://example.awsapps.com/start"
                    "eu-west-1" "123456789012" "developer" "eu-west-1" true;
                  GetCallerIdentity] |}).
Proof.
  apply (sso_get_user_role_name_with_colon (H := colon_role_externals)
           test_sso_provider (empty_world 0) "123456789012" "sandbox"
           "team" "developer" [] test_sso_session
           (<["UserId" := "AROAEXAMPLEID:fred:test"]> ∅)
           "AROAEXAMPLEID" "fred" "test"); reflexivity.
Defined.

(** ** MFA session provider *)

Lemma credential_fields_getitem (session_data k s t : pyval) :
  credential_fields session_data = Some (k, s, t) ->
  exists c,
    getitem session_data "Credentials" = Ok c /\
    getitem c "AccessKeyId" = Ok k /\
    getitem c "SecretAccessKey" = Ok s /\
    getitem c "SessionToken" = Ok t.
Proof.
  destruct session_data as [| | | | | |d]; try discriminate. simpl.
  destruct (d !! "Credentials") as [[| | | | | |c]|]; try discriminate.
  destruct (c !! "AccessKeyId") as [k'|] eqn:Hk; [|discriminate].
  destruct (c !! "SecretAccessKey") as [s'|] eqn:Hs; [|discriminate].
  destruct (c !! "SessionToken") as [t'|] eqn:Ht; [|discriminate].
  intros [= <- <- <-]. exists (PyDict c). simpl. now rewrite Hk, Hs, Ht.
Qed.

Section MFAProvider.
Context `{Boto3}.

Lemma create_temporary_session_ok (self : MFASessionProvider.t)
    (region_name : string) (k s t : pyval) (w : World) :
  credential_fields (MFASessionProvider._session_data self) = Some (k, s, t) ->
  MFASessionProvider._create_temporary_session self region_name w
  = (Ok (boto3_Session
           (MFASessionProvider.session_properties k s t (PyStr region_name))), w).
Proof.
  intros Hf. destruct (credential_fields_getitem _ _ _ _ Hf) as (c & Hc & Hk & Hs & Ht).
  unfold MFASessionProvider._create_temporary_session,
    MFASessionProvider._get_session_from.
  unfold_M. now rewrite Hc, Hk, Hs, Ht.
Qed.

Lemma create_temporary_session_missing (self : MFASessionProvider.t)
    (region_name : string) (w : World) :
  credential_fields (MFASessionProvider._session_data self) = None ->
  exists e : exn,
    (e = TypeError \/ e = KeyError "Credentials" \/ e = KeyError "AccessKeyId" \/
     e = KeyError "SecretAccessKey" \/ e = KeyError "SessionToken") /\
    MFASessionProvider._create_temporary_session self region_name w = (Raise e, w).
Proof.
  unfold MFASessionProvider._create_temporary_session. unfold_M.
  destruct (MFASessionProvider._session_data self) as [| | | | | |d]; simpl;
    try (intros _; exists TypeError; split; [tauto|reflexivity]).
  destruct (d !! "Credentials") as [[| | | | | |c]|]; simpl;
    try (intros _; exists TypeError; split; [tauto|reflexivity]);
    [|intros _; exists (KeyError "Credentials"); split; [tauto|reflexivity]].
  destruct (c !! "AccessKeyId") as [k|];
    [|intros _; exists (KeyError "AccessKeyId"); split; [tauto|reflexivity]].
  destruct (c !! "SecretAccessKey") as [s|];
    [|intros _; exists (KeyError "SecretAccessKey"); split; [tauto|reflexivity]].
  destruct (c !! "SessionToken") as [t|]; [discriminate|].
  intros _. exists (KeyError "SessionToken"). split; [tauto|reflexivity].
Qed.

Lemma mfa_assume_role_credentials_exchange_aux (self : MFASessionProvider.t)
    (role_arn region_name session_name : string) (k s t : pyval) (w : World) :
  credential_fields (MFASessionProvider._session_data self) = Some (k, s, t) ->
  MFASessionProvider.assume_role_credentials self role_arn region_name
    session_name w
  = match sts_assume_role
            (session_sts_client
               (boto3_Session
                  (MFASessionProvider.session_properties k s t
                     (PyStr region_name))))
            role_arn session_name 3600 with
    | Returns session_data =>
        (getitem session_data "Credentials",
         {| cache := cache w; clock := clock w; stdin := stdin w;
            calls := calls w ++ [AssumeRole role_arn session_name 3600] |})
    | Fails d =>
        (Raise (ExchangeFailure d),
         {| cache := cache w; clock := clock w; stdin := stdin w;
            calls := calls w ++ [AssumeRole role_arn session_name 3600] |})
    end.
Proof.
  intros Hf. unfold MFASessionProvider.assume_role_credentials.
  rewrite bind_run, (create_temporary_session_ok _ _ _ _ _ _ Hf).
  rewrite bind_run. unfold call_ext.
  change (td_seconds MFASessionProvider.ASSUME_ROLE_SESSION_DURATION) with 3600.
  now destruct (sts_assume_role _ role_arn session_name 3600).
Qed.

(** With the three credentials in the base session, [assume_role_credentials]
    asks the STS client of a session built from them and from the region for
    [assume_role] with the role ARN, the session name and a duration of 3600
    seconds, and returns the [Credentials] of the answer; an answer without
    [Credentials] raises [KeyError], a refusal is raised as it is.  The log
    gains that one [assume_role] call and nothing else changes. *)
Theorem mfa_assume_role_credentials_exchange (self : MFASessionProvider.t)
    (role_arn region_name session_name : string) (k s t : pyval) (w : World) :
  credential_fields (MFASessionProvider._session_data self) = Some (k, s, t) ->
  let client :=
    session_sts_client
      (boto3_Session
         (MFASessionProvider.session_properties k s t (PyStr region_name))) in
  MFASessionProvider.assume_role_credentials self role_arn region_name
    session_name w
  = match sts_assume_role client role_arn session_name 3600 with
    | Returns session_data =>
        (getitem session_data "Credentials",
         {| cache := cache w; clock := clock w; stdin := stdin w;
            calls := calls w ++ [AssumeRole role_arn session_name 3600] |})
    | Fails d =>
        (Raise (ExchangeFailure d),
         {| cache := cache w; clock := clock w; stdin := stdin w;
            calls := calls w ++ [AssumeRole role_arn session_name 3600] |})
    end.
Proof.
  intros Hf client.
  exact (mfa_assume_role_credentials_exchange_aux self role_arn region_name
           session_name k s t w Hf).
Qed.

(** A base session that lacks [Credentials] or one of [AccessKeyId],
    [SecretAccessKey], [SessionToken] makes [assume_role_credentials],
    [assume_role_session] and [get_user] raise [KeyError] (or [TypeError]
    where a dict is expected) before any remote call: the world is unchanged,
    and with it the call log, which would show an [assume_role] or a
    get-caller-identity call had one been made. *)
Theorem mfa_missing_credentials_make_no_call (self : MFASessionProvider.t)
    (role_arn region_name session_name : string) (w : World) :
  credential_fields (MFASessionProvider._session_data self) = None ->
  exists e : exn,
    (e = TypeError \/ e = KeyError "Credentials" \/ e = KeyError "AccessKeyId" \/
     e = KeyError "SecretAccessKey" \/ e = KeyError "SessionToken") /\
    MFASessionProvider.assume_role_credentials self role_arn region_name
      session_name w = (Raise e, w) /\
    MFASessionProvider.assume_role_session self role_arn region_name
      session_name w = (Raise e, w) /\
    MFASessionProvider.get_user self w = (Raise e, w).
Proof.
  intros Hf.
  destruct (create_temporary_session_missing self region_name w Hf)
    as (e & He & Hraise).
  destruct (create_temporary_session_missing self "eu-west-1" w Hf)
    as (e' & _ & Hraise').
  assert (Heq : e' = e).
  { revert Hraise Hraise'.
    unfold MFASessionProvider._create_temporary_session. unfold_M.
    destruct (getitem (MFASessionProvider._session_data self) "Credentials")
      as [c|x]; [|congruence].
    destruct (getitem c "AccessKeyId"); [|congruence].
    destruct (getitem c "SecretAccessKey"); [|congruence].
    destruct (getitem c "SessionToken"); congruence. }
  subst e'. exists e. split; [exact He|].
  assert (Hc : MFASessionProvider.assume_role_credentials self role_arn
                 region_name session_name w = (Raise e, w)).
  { unfold MFASessionProvider.assume_role_credentials.
    now rewrite bind_run, Hraise. }
  split; [exact Hc|]. split.
  - unfold MFASessionProvider.assume_role_session. now rewrite bind_run, Hc.
  - unfold MFASessionProvider.get_user. now rewrite bind_run, Hraise'.
Qed.

(** [assume_role_session] wraps the credentials of the assumed role into a
    new session: built from their access key id, secret access key and
    session token, and bound to the region asked for when that is not
    empty.  It makes the one [assume_role] call and no other. *)
Theorem mfa_assume_role_session_binds_region (self : MFASessionProvider.t)
    (role_arn region_name session_name : string) (k s t : pyval)
    (resp role_credentials k' s' t' : pyval) (w : World) :
  credential_fields (MFASessionProvider._session_data self) = Some (k, s, t) ->
  sts_assume_role
    (session_sts_client
       (boto3_Session
          (MFASessionProvider.session_properties k s t (PyStr region_name))))
    role_arn session_name 3600 = Returns resp ->
  getitem resp "Credentials" = Ok role_credentials ->
  getitem role_credentials "AccessKeyId" = Ok k' ->
  getitem role_credentials "SecretAccessKey" = Ok s' ->
  getitem role_credentials "SessionToken" = Ok t' ->
  region_name <> "" ->
  exists properties : gmap string pyval,
    MFASessionProvider.assume_role_session self role_arn region_name
      session_name w
    = (Ok (boto3_Session properties),
       {| cache := cache w; clock := clock w; stdin := stdin w;
          calls := calls w ++ [AssumeRole role_arn session_name 3600] |}) /\
    properties !! "aws_access_key_id" = Some k' /\
    properties !! "aws_secret_access_key" = Some s' /\
    properties !! "aws_session_token" = (if truthy t' then Some t' else None) /\
    properties !! "region_name" = Some (PyStr region_name).
Proof.
  intros Hf Hresp Hc Hk Hs Ht Hregion.
  exists (MFASessionProvider.session_properties k' s' t' (PyStr region_name)).
  split.
  - unfold MFASessionProvider.assume_role_session. rewrite bind_run.
    rewrite (mfa_assume_role_credentials_exchange_aux self role_arn region_name
               session_name k s t w Hf), Hresp, Hc.
    unfold MFASessionProvider._get_session_from. unfold_M.
    now rewrite Hk, Hs, Ht.
  - unfold MFASessionProvider.session_properties.
    assert (Hr : truthy (PyStr region_name) = true).
    { simpl. apply negb_true_iff. now apply String.eqb_neq. }
    rewrite Hr. destruct (truthy t'); now simplify_map_eq.
Qed.

(** [get_user] asks get-caller-identity through a session built from the
    base credentials in the region [eu-west-1] and returns the end of the
    identity ARN after its last [/]. *)
Theorem mfa_get_user_is_last_path_component (self : MFASessionProvider.t)
    (k s t : pyval) (identity : gmap string string) (account arn : string)
    (w : World) :
  credential_fields (MFASessionProvider._session_data self) = Some (k, s, t) ->
  sts_get_caller_identity
    (session_sts_client
       (boto3_Session
          (MFASessionProvider.session_properties k s t (PyStr "eu-west-1"))))
  = Returns identity ->
  identity !! "Account" = Some account ->
  identity !! "Arn" = Some arn ->
  exists user : string,
    after_last "/" arn user /\
    MFASessionProvider.get_user self w
    = (Ok user,
       {| cache := cache w; clock := clock w; stdin := stdin w;
          calls := calls w ++ [GetCallerIdentity] |}).
Proof.
  intros Hf Hid Hacc Harn.
  destruct (after_last_exists "/" arn) as [user Huser].
  exists user. split; [exact Huser|].
  unfold MFASessionProvider.get_user.
  rewrite bind_run, (create_temporary_session_ok _ _ _ _ _ _ Hf).
  rewrite bind_run.
  now rewrite (get_account_and_user_ok _ _ _ _ _ _ Hid Hacc Harn Huser).
Qed.

End MFAProvider.

Lemma mfa_assume_role_credentials_exchange_witness :
  MFASessionProvider.assume_role_credentials (H := test_boto3) test_mfa_provider
    "arn:aws:iam::123456789012:role/administrator" "eu-west-1" "session"
    (empty_world 0)
  = (Ok ROLE_CREDENTIALS,
     {| cache := ∅; clock := 0; stdin := [];
        calls := [AssumeRole "arn:aws:iam::123456789012:role/administrator"
                    "session" 3600] |}).
Proof.
  rewrite (mfa_assume_role_credentials_exchange (H := test_boto3)
             test_mfa_provider "arn:aws:iam::123456789012:role/administrator"
             "eu-west-1" "session" (PyStr "temporary_access_key_id")
             (PyStr "temporary_secret_access_key") (PyStr "token")
             (empty_world 0)).
  - vm_compute. reflexivity.
  - vm_compute. reflexivity.
Defined.

Lemma mfa_missing_credentials_make_no_call_witness :
  credential_fields (session_expiring_at (utc_datetime t_expiration)) = None /\
  exists e : exn,
    (e = TypeError \/ e = KeyError "Credentials" \/ e = KeyError "AccessKeyId" \/
     e = KeyError "SecretAccessKey" \/ e = KeyError "SessionToken") /\
    MFASessionProvider.assume_role_credentials (H := test_boto3)
      (MFASessionProvider.mk (session_expiring_at (utc_datetime t_expiration)))
      "arn:aws:iam::123456789012:role/administrator" "eu-west-1" "session"
      (empty_world 0) = (Raise e, empty_world 0) /\
    MFASessionProvider.assume_role_session (H := test_boto3)
      (MFASessionProvider.mk (session_expiring_at (utc_datetime t_expiration)))
      "arn:aws:iam::123456789012:role/administrator" "eu-west-1" "session"
      (empty_world 0) = (Raise e, empty_world 0) /\
    MFASessionProvider.get_user (H := test_boto3)
      (MFASessionProvider.mk (session_expiring_at (utc_datetime t_expiration)))
      (empty_world 0) = (Raise e, empty_world 0).
Proof.
  split; [ vm_compute; reflexivity | ].
  apply (mfa_missing_credentials_make_no_call (H := test_boto3)
           (MFASessionProvider.mk (session_expiring_at (utc_datetime t_expiration)))
           "arn:aws:iam::123456789012:role/administrator" "eu-west-1" "session"
           (empty_world 0)).
  vm_compute. reflexivity.
Defined.

Lemma mfa_assume_role_session_binds_region_witness :
  exists properties : gmap string pyval,
    MFASessionProvider.assume_role_session (H := test_boto3) test_mfa_provider
      "arn:aws:iam::123456789012:role/administrator" "us-east-1" "session"
      (empty_world 0)
    = (Ok (boto3_Session (Boto3 := test_boto3) properties),
       {| cache := ∅; clock := 0; stdin := [];
          calls := [AssumeRole "arn:aws:iam::123456789012:role/administrator"
                      "session" 3600] |}) /\
    properties !! "aws_access_key_id" = Some (PyStr "role_access_key_id") /\
    properties !! "aws_secret_access_key" = Some (PyStr "role_secret_access_key") /\
    properties !! "aws_session_token"
    = (if truthy (PyStr "role_token") then Some (PyStr "role_token") else None) /\
    properties !! "region_name" = Some (PyStr "us-east-1").
Proof.
  apply (mfa_assume_role_session_binds_region (H := test_boto3) test_mfa_provider
           "arn:aws:iam::123456789012:role/administrator" "us-east-1" "session"
           (PyStr "temporary_access_key_id")
           (PyStr "temporary_secret_access_key") (PyStr "token")
           (PyDict {[ "Credentials" := ROLE_CREDENTIALS ]}) ROLE_CREDENTIALS
           (PyStr "role_access_key_id") (PyStr "role_secret_access_key")
           (PyStr "role_token") (empty_world 0)).
  - vm_compute. reflexivity.
  - reflexivity.
  - vm_compute. reflexivity.
  - vm_compute. reflexivity.
  - vm_compute. reflexivity.
  - vm_compute. reflexivity.
  - discriminate.
Defined.

Lemma mfa_get_user_is_last_path_component_witness :
  exists user : string,
    after_last "/" "arn:aws:iam::123456789012:user/ops/fred" user /\
    MFASessionProvider.get_user (H := test_boto3) test_mfa_provider (empty_world 0)
    = (Ok user,
       {| cache := ∅; clock := 0; stdin := []; calls := [GetCallerIdentity] |}).
Proof.
  apply (mfa_get_user_is_last_path_component (H := test_boto3) test_mfa_provider
           (PyStr "temporary_access_key_id")
           (PyStr "temporary_secret_access_key") (PyStr "token")
           (<["Arn" := "arn:aws:iam::123456789012:user/ops/fred"]>
              (<["Account" := "123456789012"]> ∅))
           "123456789012" "arn:aws:iam::123456789012:user/ops/fred"
           (empty_world 0)).
  - vm_compute. reflexivity.
  - reflexivity.
  - vm_compute. reflexivity.
  - vm_compute. reflexivity.
Defined.
